(** * ETP: personal finance tracker

    A shallow embedding of [database.py] (the transaction store and the
    summary query) and of [chatbot.py] (the keyword-dispatched insight
    generator), followed by the properties established about them.

    Modelling choices, stated once:
    - Python [str] values are byte strings ([String.string]); comparison is
      byte-wise lexicographic, which is what both Python (on code points of
      UTF-8 text) and SQLite's BINARY collation compute.  [str.lower] is
      modelled on the ASCII range; bytes outside [A-Z] are left unchanged.
    - Amounts are Python/SQLite binary floating-point numbers in the source.
      They are modelled by exact rationals [Q]: sums, products, quotients and
      the rounding of [format] are performed on the exact value, so the
      rounding error of binary64 arithmetic is abstracted away.
    - The SQLite file is modelled by the table [transactions] (rows in rowid
      order) together with the AUTOINCREMENT counter.  The column
      [created_at] is never selected by any query and is left out, as is the
      never-populated table [budget].
    - [datetime.now()] is an explicit input (the calendar date of the call);
      one response observes one value of the clock.
    - Python exceptions are explicit: fallible operations return a [result]. *)

From Stdlib Require Import ZArith QArith Qround Qabs List String Ascii Bool.
From Stdlib Require Import Lia Lqa DecimalString Permutation Sorted.
From Stdlib Require Import Setoid Morphisms.
Import ListNotations.
Open Scope string_scope.

(** ** Python exceptions *)

Inductive exn : Type :=
| ZeroDivisionError
| ValueError
| KeyError.

Inductive result (A : Type) : Type :=
| Ok (a : A)
| Raise (e : exn).
Arguments Ok {A} a.
Arguments Raise {A} e.

Definition bind {A B : Type} (r : result A) (k : A -> result B) : result B :=
  match r with
  | Ok a => k a
  | Raise e => Raise e
  end.

Notation "x <- c ;; k" := (bind c (fun x => k))
  (at level 61, c at next level, right associativity).

(** ** Strings *)

Module Text.

(** [c.lower()] for one byte. *)
Definition lower_ascii (c : ascii) : ascii :=
  let n := N_of_ascii c in
  if ((65 <=? n) && (n <=? 90))%N then ascii_of_N (n + 32) else c.

(** [s.lower()] *)
Fixpoint lower (s : string) : string :=
  match s with
  | EmptyString => EmptyString
  | String c r => String (lower_ascii c) (lower r)
  end.

(** [sub in s]: [sub] occurs in [s] as a contiguous substring. *)
Fixpoint contains (sub s : string) : bool :=
  match s with
  | EmptyString => prefix sub EmptyString
  | String _ r => prefix sub s || contains sub r
  end.

(** [s.startswith(p)] *)
Definition startswith (s p : string) : bool := prefix p s.

(** [a <= b] and [a < b] on strings. *)
Definition le (a b : string) : bool := String.leb a b.
Definition lt (a b : string) : bool := String.ltb a b.

(** [n] copies of the byte [c]. *)
Fixpoint replicate (n : nat) (c : ascii) : string :=
  match n with
  | O => EmptyString
  | S k => String c (replicate k c)
  end.

(** [s.zfill(w)] for a string of digits. *)
Definition zfill (w : nat) (s : string) : string :=
  replicate (w - String.length s) "0"%char ++ s.

(** [str(n)] for a non-negative integer. *)
Definition of_Z (n : Z) : string :=
  NilZero.string_of_uint (N.to_uint (Z.to_N n)).

End Text.

(** ** Numbers and their formatting *)

Module Num.

Definition Qltb (a b : Q) : bool :=
  match (a ?= b)%Q with Lt => true | _ => false end.

(** Nearest integer, ties to even: the rounding applied by [format]. *)
Definition round_half_even (q : Q) : Z :=
  let f := Qfloor q in
  match (q - inject_Z f ?= 1 # 2)%Q with
  | Lt => f
  | Gt => (f + 1)%Z
  | Eq => if Z.even f then f else (f + 1)%Z
  end.

(** [format(x, '.<d>f')] for [d >= 1]: sign, integer part, a point and
    exactly [d] fractional digits.  A negative value keeps its sign even
    when it rounds to zero, as Python does. *)
Definition format_f (d : nat) (x : Q) : string :=
  let p := (10 ^ Z.of_nat d)%Z in
  let n := round_half_even (Qabs x * inject_Z p)%Q in
  let sign := if Qltb x 0 then "-" else "" in
  sign ++ Text.of_Z (n / p) ++ "." ++ Text.zfill d (Text.of_Z (n mod p)).

(** [a / b] *)
Definition div (a b : Q) : result Q :=
  if Qeq_bool b 0 then Raise ZeroDivisionError else Ok (a / b)%Q.

(** [sum(xs)]: left to right from the integer [0]. *)
Definition sum (xs : list Q) : Q := fold_left Qplus xs 0%Q.

End Num.

(** ** The clock *)

Module Clock.

(** The calendar date of [datetime.now()]; the time of day is never
    formatted by the program. *)
Record datetime : Type := mkDate { year : Z; month : Z; day : Z }.

(** Proleptic Gregorian day number of a date (days since 1970-01-01). *)
Definition toordinal (d : datetime) : Z :=
  let y := if (month d <=? 2)%Z then (year d - 1)%Z else year d in
  let era := (y / 400)%Z in
  let yoe := (y - era * 400)%Z in
  let mp := if (month d >? 2)%Z then (month d - 3)%Z else (month d + 9)%Z in
  let doy := ((153 * mp + 2) / 5 + day d - 1)%Z in
  let doe := (yoe * 365 + yoe / 4 - yoe / 100 + doy)%Z in
  (era * 146097 + doe - 719468)%Z.

Definition fromordinal (z0 : Z) : datetime :=
  let z := (z0 + 719468)%Z in
  let era := (z / 146097)%Z in
  let doe := (z - era * 146097)%Z in
  let yoe := ((doe - doe / 1460 + doe / 36524 - doe / 146096) / 365)%Z in
  let doy := (doe - (365 * yoe + yoe / 4 - yoe / 100))%Z in
  let mp := ((5 * doy + 2) / 153)%Z in
  let d := (doy - (153 * mp + 2) / 5 + 1)%Z in
  let m := if (mp <? 10)%Z then (mp + 3)%Z else (mp - 9)%Z in
  let y := (yoe + era * 400)%Z in
  mkDate (if (m <=? 2)%Z then (y + 1)%Z else y) m d.

(** [d - timedelta(days=n)] *)
Definition minus_days (d : datetime) (n : Z) : datetime :=
  fromordinal (toordinal d - n).

Definition month_name (m : Z) : string :=
  nth (Z.to_nat (m - 1))
    ["January"; "February"; "March"; "April"; "May"; "June"; "July";
     "August"; "September"; "October"; "November"; "December"] "".

(** [d.strftime("%Y-%m")] *)
Definition strftime_Y_m (d : datetime) : string :=
  Text.zfill 4 (Text.of_Z (year d)) ++ "-" ++ Text.zfill 2 (Text.of_Z (month d)).

(** [d.strftime("%Y-%m-%d")] *)
Definition strftime_Y_m_d (d : datetime) : string :=
  strftime_Y_m d ++ "-" ++ Text.zfill 2 (Text.of_Z (day d)).

(** [d.strftime("%B %Y")] *)
Definition strftime_B_Y (d : datetime) : string :=
  month_name (month d) ++ " " ++ Text.zfill 4 (Text.of_Z (year d)).

End Clock.

(** ** database.py *)

Module Database.

(** A row of [transactions] as selected by [get_transactions]; the same
    record is the dictionary handed to the chatbot. *)
Record transaction : Type := mkTransaction {
  id : Z;
  type : string;
  category : string;
  amount : Q;
  date : string;
  description : string
}.

(** The table in rowid order and the AUTOINCREMENT counter: the largest
    rowid the table has ever held. *)
Record store : Type := mkStore {
  rows : list transaction;
  seq : Z
}.

Definition empty : store := mkStore [] 0.

(** [CREATE TABLE IF NOT EXISTS]: an existing table is kept as it is. *)
Definition init_db (file : option store) : store :=
  match file with
  | Some s => s
  | None => empty
  end.

(** [INSERT INTO transactions (type, category, amount, date, description)] *)
Definition add_transaction (s : store) (type category : string) (amount : Q)
    (date description : string) : store :=
  let rowid := (seq s + 1)%Z in
  mkStore (rows s ++ [mkTransaction rowid type category amount date description])
          rowid.

(** [ORDER BY date DESC]: rows of equal date stay in rowid order. *)
Fixpoint insert_desc (t : transaction) (l : list transaction) : list transaction :=
  match l with
  | [] => [t]
  | u :: r => if Text.lt (date t) (date u) then u :: insert_desc t r else t :: l
  end.

Definition order_by_date_desc (l : list transaction) : list transaction :=
  fold_right insert_desc [] l.

Definition get_transactions (s : store) : list transaction :=
  order_by_date_desc (rows s).

Record summary : Type := mkSummary {
  total_income : Q;
  total_expenses : Q;
  balance : Q
}.

(** [SELECT SUM(amount) FROM transactions WHERE type = ?]: NULL when no row
    is selected. *)
Definition select_sum_amount (s : store) (ty : string) : option Q :=
  match filter (fun t => String.eqb (type t) ty) (rows s) with
  | [] => None
  | l => Some (Num.sum (map amount l))
  end.

(** [v or 0] *)
Definition or_zero (v : option Q) : Q :=
  match v with
  | None => 0%Q
  | Some q => if Qeq_bool q 0 then 0%Q else q
  end.

Definition get_summary (s : store) : summary :=
  let total_income := or_zero (select_sum_amount s "income") in
  let total_expenses := or_zero (select_sum_amount s "expense") in
  mkSummary total_income total_expenses (total_income - total_expenses)%Q.

(** [DELETE FROM transactions WHERE id = ?] *)
Definition delete_transaction (s : store) (transaction_id : Z) : store :=
  mkStore (filter (fun t => negb (id t =? transaction_id)%Z) (rows s)) (seq s).

End Database.

(** ** chatbot.py *)

Module Chatbot.
Import Database.

(** What a response reads besides its arguments: the database file (through
    [get_summary]) and the clock. *)
Record world : Type := mkWorld {
  db : store;
  now : Clock.datetime
}.

Definition nl : string := String (ascii_of_nat 10) EmptyString.

(** Dictionaries keep insertion order, which the loops below observe. *)
Definition dict (V : Type) : Type := list (string * V).

Fixpoint dict_get {V : Type} (d : dict V) (k : string) (default : V) : V :=
  match d with
  | [] => default
  | (k', v) :: r => if String.eqb k' k then v else dict_get r k default
  end.

Fixpoint dict_item {V : Type} (d : dict V) (k : string) : result V :=
  match d with
  | [] => Raise KeyError
  | (k', v) :: r => if String.eqb k' k then Ok v else dict_item r k
  end.

Fixpoint dict_set {V : Type} (d : dict V) (k : string) (v : V) : dict V :=
  match d with
  | [] => [(k, v)]
  | (k', v') :: r =>
      if String.eqb k' k then (k', v) :: r else (k', v') :: dict_set r k v
  end.

(** A [for] loop whose body may raise. *)
Fixpoint for_each {A B : Type} (body : B -> A -> result B) (l : list A) (acc : B)
    : result B :=
  match l with
  | [] => Ok acc
  | a :: r => acc' <- body acc a ;; for_each body r acc'
  end.

Definition is_expense (t : transaction) : bool := String.eqb (type t) "expense".

Definition get_monthly_spending (w : world) (transactions : list transaction)
    (currency_symbol : string) : result string :=
  let current_month := Clock.strftime_Y_m (now w) in
  let monthly_expenses :=
    Num.sum (map amount
      (filter (fun t => is_expense t && Text.startswith (date t) current_month)
              transactions)) in
  Ok ("You spent " ++ currency_symbol ++ Num.format_f 2 monthly_expenses
      ++ " this month (" ++ Clock.strftime_B_Y (now w) ++ ").").

Definition get_budget_recommendation (w : world) (transactions : list transaction)
    (currency_symbol : string) : result string :=
  let summary := get_summary (db w) in
  let total_income := total_income summary in
  if Qeq_bool total_income 0 then
    Ok "💡 Add some income transactions to get personalized budget recommendations."
  else
    let recommended_budget : dict Q :=
      [ ("Food", total_income * (15 # 100));
        ("Transport", total_income * (10 # 100));
        ("Entertainment", total_income * (10 # 100));
        ("Utilities", total_income * (10 # 100));
        ("Healthcare", total_income * (5 # 100));
        ("Shopping", total_income * (10 # 100));
        ("Savings", total_income * (40 # 100)) ]%Q in
    let response :=
      "📊 **Recommended Monthly Budget** (based on your total income of "
      ++ currency_symbol ++ Num.format_f 2 total_income ++ "):" ++ nl ++ nl in
    let response :=
      fold_left
        (fun response '(category, amount) =>
           response ++ "• **" ++ category ++ "**: " ++ currency_symbol
           ++ Num.format_f 2 amount ++ nl)
        recommended_budget response in
    Ok (response ++ nl
        ++ "💡 *Tip: Try to save at least 40% of your income for financial security.*").

(** The loop shared by [get_expense_breakdown] and [get_savings_tips]:
    [category_totals[c] = category_totals.get(c, 0) + t['amount']] over the
    expenses. *)
Definition category_totals (transactions : list transaction) : dict Q :=
  fold_left
    (fun totals t =>
       if is_expense t
       then dict_set totals (category t) (dict_get totals (category t) 0 + amount t)%Q
       else totals)
    transactions [].

(** [sorted(items, key=lambda x: x[1], reverse=True)]: stable. *)
Fixpoint insert_by_amount (x : string * Q) (l : list (string * Q)) : list (string * Q) :=
  match l with
  | [] => [x]
  | y :: r => if Num.Qltb (snd x) (snd y) then y :: insert_by_amount x r else x :: l
  end.

Definition sorted_by_amount_desc (items : list (string * Q)) : list (string * Q) :=
  fold_right insert_by_amount [] items.

(** [(amount / total * 100) if total > 0 else 0] *)
Definition percent_of (amount total : Q) : result Q :=
  if Num.Qltb 0 total then q <- Num.div amount total ;; Ok (q * 100)%Q else Ok 0%Q.

Definition get_expense_breakdown (transactions : list transaction)
    (currency_symbol : string) : result string :=
  let category_totals := category_totals transactions in
  match category_totals with
  | [] => Ok "📝 No expenses recorded yet. Start adding expenses to see your breakdown!"
  | _ :: _ =>
      let total_expenses := Num.sum (map snd category_totals) in
      let response := "💰 **Your Expense Breakdown by Category**:" ++ nl ++ nl in
      response <-
        for_each
          (fun response '(category, amount) =>
             percentage <- percent_of amount total_expenses ;;
             Ok (response ++ "• **" ++ category ++ "**: " ++ currency_symbol
                 ++ Num.format_f 2 amount ++ " (" ++ Num.format_f 1 percentage
                 ++ "%)" ++ nl))
          (sorted_by_amount_desc category_totals) response ;;
      Ok (response ++ nl ++ "**Total**: " ++ currency_symbol
          ++ Num.format_f 2 total_expenses)
  end.

Definition get_spending_trends (w : world) (transactions : list transaction)
    (currency_symbol : string) : result string :=
  match transactions with
  | [] => Ok "📊 No transactions to analyze yet. Start tracking to see your spending trends!"
  | _ :: _ =>
      let thirty_days_ago := Clock.strftime_Y_m_d (Clock.minus_days (now w) 30) in
      let recent_transactions :=
        filter (fun t => Text.le thirty_days_ago (date t)) transactions in
      match recent_transactions with
      | [] => Ok "📅 No transactions in the last 30 days."
      | _ :: _ =>
          let total_recent :=
            Num.sum (map amount (filter is_expense recent_transactions)) in
          avg_daily <- Num.div total_recent 30 ;;
          let sixty_days_ago := Clock.strftime_Y_m_d (Clock.minus_days (now w) 60) in
          let previous_period :=
            filter (fun t => Text.le sixty_days_ago (date t)
                             && Text.lt (date t) thirty_days_ago
                             && is_expense t)
                   transactions in
          let response := "📈 **Spending Trends (Last 30 Days)**:" ++ nl ++ nl in
          let response :=
            response ++ "• **Total spending**: " ++ currency_symbol
            ++ Num.format_f 2 total_recent ++ nl in
          let response :=
            response ++ "• **Average daily spending**: " ++ currency_symbol
            ++ Num.format_f 2 avg_daily ++ nl in
          match previous_period with
          | [] => Ok response
          | _ :: _ =>
              let prev_total := Num.sum (map amount previous_period) in
              change <-
                (if Num.Qltb 0 prev_total
                 then q <- Num.div (total_recent - prev_total) prev_total ;;
                      Ok (q * 100)%Q
                 else Ok 0%Q) ;;
              let trend_emoji :=
                if Num.Qltb 0 change then "📈"
                else if Num.Qltb change 0 then "📉" else "➡️" in
              Ok (response ++ "• **Trend**: " ++ trend_emoji ++ " "
                  ++ Num.format_f 1 (Qabs change) ++ "% "
                  ++ (if Num.Qltb 0 change then "increase"
                      else if Num.Qltb change 0 then "decrease" else "no change")
                  ++ " from previous month" ++ nl)
          end
      end
  end.

(** [max(d, key=d.get)]: the first key whose value is maximal. *)
Definition max_key (d : dict Q) : result string :=
  match d with
  | [] => Raise ValueError
  | x :: r =>
      Ok (fst (fold_left
                 (fun best y => if Num.Qltb (snd best) (snd y) then y else best)
                 r x))
  end.

Definition tips : dict string :=
  [ ("Food", "🍳 Consider meal planning and cooking at home to reduce food expenses.");
    ("Transport", "🚌 Use public transportation or carpool to save on transport costs.");
    ("Entertainment", "🎭 Look for free or low-cost entertainment options in your area.");
    ("Shopping", "🛍️ Set a budget for shopping and avoid impulse purchases.");
    ("Utilities", "💡 Reduce energy consumption by using LED bulbs and unplugging devices.");
    ("Healthcare", "🏥 Maintain preventive care to avoid expensive medical bills.") ].

Definition get_savings_tips (transactions : list transaction)
    (currency_symbol : string) : result string :=
  let category_totals := category_totals transactions in
  match category_totals with
  | [] => Ok "💡 Start tracking expenses to get personalized savings tips!"
  | _ :: _ =>
      highest_category <- max_key category_totals ;;
      highest_amount <- dict_item category_totals highest_category ;;
      let response := "💡 **Personalized Savings Tips**:" ++ nl ++ nl in
      let response :=
        response ++ "Your highest spending is on **" ++ highest_category ++ "** ("
        ++ currency_symbol ++ Num.format_f 2 highest_amount ++ "). " in
      let response :=
        response ++ dict_get tips highest_category "Consider reducing this expense."
        ++ nl ++ nl in
      let response := response ++ "**General Money-Saving Tips**:" ++ nl in
      let response := response ++ "✓ Track all your expenses daily" ++ nl in
      let response := response ++ "✓ Set monthly budget goals for each category" ++ nl in
      let response :=
        response ++ "✓ Build an emergency fund (3-6 months of expenses)" ++ nl in
      let response := response ++ "✓ Review and adjust your budget regularly" ++ nl in
      let response := response ++ "✓ Automate savings transfers" ++ nl in
      Ok response
  end.

Definition get_financial_insights (w : world) (transactions : list transaction)
    (currency_symbol : string) : result string :=
  let summary := get_summary (db w) in
  let response := "📊 **Your Financial Overview**:" ++ nl ++ nl in
  let response :=
    response ++ "• **Total Income**: " ++ currency_symbol
    ++ Num.format_f 2 (total_income summary) ++ nl in
  let response :=
    response ++ "• **Total Expenses**: " ++ currency_symbol
    ++ Num.format_f 2 (total_expenses summary) ++ nl in
  let response :=
    response ++ "• **Current Balance**: " ++ currency_symbol
    ++ Num.format_f 2 (balance summary) ++ nl ++ nl in
  if Num.Qltb 0 (balance summary) then
    savings_rate <-
      (if Num.Qltb 0 (total_income summary)
       then q <- Num.div (balance summary) (total_income summary) ;; Ok (q * 100)%Q
       else Ok 0%Q) ;;
    let response :=
      response ++ "✅ Great job! You're saving " ++ Num.format_f 1 savings_rate
      ++ "% of your income. Keep it up!" ++ nl in
    if Num.Qltb savings_rate 20 then
      Ok (response
          ++ "💡 Try to increase your savings rate to at least 20% for better financial security.")
    else if Qle_bool 40 savings_rate then
      Ok (response
          ++ "🌟 Excellent savings rate! You're building a strong financial foundation.")
    else Ok response
  else if Num.Qltb (balance summary) 0 then
    let response :=
      response ++ "⚠️ You're spending more than you earn. Consider:" ++ nl in
    let response :=
      response ++ "• Reviewing your expenses and cutting unnecessary costs" ++ nl in
    let response := response ++ "• Finding ways to increase your income" ++ nl in
    Ok (response ++ "• Creating a strict budget to get back on track")
  else
    Ok (response
        ++ "➡️ Your income and expenses are balanced. Consider saving more for emergencies.").

Definition get_chatbot_response (w : world) (user_input : string)
    (transactions : list transaction) (currency_symbol : string) : result string :=
  let user_input_lower := Text.lower user_input in
  if Text.contains "spend" user_input_lower && Text.contains "month" user_input_lower then
    get_monthly_spending w transactions currency_symbol
  else if Text.contains "total expense" user_input_lower
          || Text.contains "how much did i spend" user_input_lower then
    let summary := get_summary (db w) in
    Ok ("Your total expenses are " ++ currency_symbol
        ++ Num.format_f 2 (total_expenses summary))
  else if Text.contains "total income" user_input_lower
          || Text.contains "how much did i earn" user_input_lower then
    let summary := get_summary (db w) in
    Ok ("Your total income is " ++ currency_symbol
        ++ Num.format_f 2 (total_income summary))
  else if Text.contains "balance" user_input_lower
          || Text.contains "how much do i have" user_input_lower then
    let summary := get_summary (db w) in
    Ok ("Your current balance is " ++ currency_symbol
        ++ Num.format_f 2 (balance summary))
  else if Text.contains "budget" user_input_lower
          || Text.contains "suggest" user_input_lower then
    get_budget_recommendation w transactions currency_symbol
  else if Text.contains "breakdown" user_input_lower
          || Text.contains "category" user_input_lower then
    get_expense_breakdown transactions currency_symbol
  else if Text.contains "trend" user_input_lower
          || Text.contains "pattern" user_input_lower then
    get_spending_trends w transactions currency_symbol
  else if Text.contains "save" user_input_lower
          || Text.contains "tip" user_input_lower then
    get_savings_tips transactions currency_symbol
  else
    get_financial_insights w transactions currency_symbol.

End Chatbot.


(** ** The specification's words, for comparison with the code *)

Module Spec.
Import Database Chatbot.

(** The report a question is answered with. *)
Inductive branch : Type :=
| MonthlySpending
| TotalExpenses
| TotalIncome
| Balance
| Budget
| Breakdown
| Trends
| SavingsTips
| Overview.

(** The ordered keyword predicates, each with the branch it selects. *)
Definition rules : list ((string -> bool) * branch) :=
  [ (fun s => Text.contains "spend" s && Text.contains "month" s, MonthlySpending);
    (fun s => Text.contains "total expense" s
              || Text.contains "how much did i spend" s, TotalExpenses);
    (fun s => Text.contains "total income" s
              || Text.contains "how much did i earn" s, TotalIncome);
    (fun s => Text.contains "balance" s || Text.contains "how much do i have" s, Balance);
    (fun s => Text.contains "budget" s || Text.contains "suggest" s, Budget);
    (fun s => Text.contains "breakdown" s || Text.contains "category" s, Breakdown);
    (fun s => Text.contains "trend" s || Text.contains "pattern" s, Trends);
    (fun s => Text.contains "save" s || Text.contains "tip" s, SavingsTips) ].

(** First match wins; the general overview when nothing matches. *)
Definition select (s : string) : branch :=
  match find (fun r => fst r s) rules with
  | Some r => snd r
  | None => Overview
  end.

Definition handler (b : branch) (w : world) (transactions : list transaction)
    (currency_symbol : string) : result string :=
  match b with
  | MonthlySpending => get_monthly_spending w transactions currency_symbol
  | TotalExpenses =>
      Ok ("Your total expenses are " ++ currency_symbol
          ++ Num.format_f 2 (total_expenses (get_summary (db w))))
  | TotalIncome =>
      Ok ("Your total income is " ++ currency_symbol
          ++ Num.format_f 2 (total_income (get_summary (db w))))
  | Balance =>
      Ok ("Your current balance is " ++ currency_symbol
          ++ Num.format_f 2 (balance (get_summary (db w))))
  | Budget => get_budget_recommendation w transactions currency_symbol
  | Breakdown => get_expense_breakdown transactions currency_symbol
  | Trends => get_spending_trends w transactions currency_symbol
  | SavingsTips => get_savings_tips transactions currency_symbol
  | Overview => get_financial_insights w transactions currency_symbol
  end.

(** The sum of [amount] over the records of type [ty]. *)
Fixpoint sum_where (ty : string) (l : list transaction) : Q :=
  match l with
  | [] => 0%Q
  | t :: r => if String.eqb (type t) ty then (amount t + sum_where ty r)%Q
              else sum_where ty r
  end.

(** The sum of [amount] over the expenses of category [c]. *)
Fixpoint category_sum (c : string) (l : list transaction) : Q :=
  match l with
  | [] => 0%Q
  | t :: r => if is_expense t && String.eqb (category t) c
              then (amount t + category_sum c r)%Q
              else category_sum c r
  end.

(** Two summaries that hold the same numbers. *)
Definition summary_eq (a b : summary) : Prop :=
  (total_income a == total_income b
   /\ total_expenses a == total_expenses b
   /\ balance a == balance b)%Q.

(** What the caller of [add_transaction] supplies. *)
Record entry : Type := mkEntry {
  e_type : string;
  e_category : string;
  e_amount : Q;
  e_date : string;
  e_description : string
}.

Definition fields (t : transaction) : entry :=
  mkEntry (type t) (category t) (amount t) (date t) (description t).

Definition add_entry (s : store) (e : entry) : store :=
  add_transaction s (e_type e) (e_category e) (e_amount e) (e_date e) (e_description e).

(** A sequence of [add_transaction] calls. *)
Definition add_all (s : store) (l : list entry) : store := fold_left add_entry l s.

(** The rows a run of insertions appends to a table whose counter is [n]. *)
Fixpoint assign_ids (n : Z) (l : list entry) : list transaction :=
  match l with
  | [] => []
  | e :: r =>
      mkTransaction (n + 1) (e_type e) (e_category e) (e_amount e) (e_date e)
                    (e_description e)
      :: assign_ids (n + 1) r
  end.

(** [date a >= date b] *)
Definition date_ge (a b : transaction) : Prop := Text.le (date b) (date a) = true.

(** [snd a >= snd b] *)
Definition amount_ge (a b : string * Q) : Prop := (snd b <= snd a)%Q.

(** Every rowid is positive, at most the counter, and the rowids increase
    along the table. *)
Definition well_formed (s : store) : Prop :=
  StronglySorted Z.lt (map id (rows s))
  /\ Forall (fun t => 0 < id t <= seq s)%Z (rows s)
  /\ (0 <= seq s)%Z.

(** One line of the budget recommendation. *)
Definition budget_line (currency_symbol category : string) (amount : Q) : string :=
  "• **" ++ category ++ "**: " ++ currency_symbol ++ Num.format_f 2 amount ++ nl.

(** One line of the expense breakdown. *)
Definition breakdown_line (currency_symbol : string) (total : Q) (item : string * Q)
    : string :=
  "• **" ++ fst item ++ "**: " ++ currency_symbol ++ Num.format_f 2 (snd item)
  ++ " (" ++ Num.format_f 1 (snd item / total * 100)%Q ++ "%)" ++ nl.

(** The lines of a report, one after the other. *)
Definition lines (l : list string) : string := fold_right append "" l.

(** The day 30 (60) days before the call, as an ISO date string. *)
Definition thirty_days_ago (w : world) : string :=
  Clock.strftime_Y_m_d (Clock.minus_days (now w) 30).

Definition sixty_days_ago (w : world) : string :=
  Clock.strftime_Y_m_d (Clock.minus_days (now w) 60).

(** The trailing window: the records whose date string is not below
    [thirty_days_ago]. *)
Definition trailing_window (w : world) (l : list transaction) : list transaction :=
  filter (fun t => Text.le (thirty_days_ago w) (date t)) l.

(** The preceding window: the records whose date string is at least
    [sixty_days_ago] and below [thirty_days_ago]. *)
Definition preceding_window (w : world) (l : list transaction) : list transaction :=
  filter (fun t => Text.le (sixty_days_ago w) (date t)
                   && Text.lt (date t) (thirty_days_ago w)) l.

(** The first lines of the trend report, for a trailing expense total. *)
Definition trend_head (currency_symbol : string) (recent : Q) : string :=
  "📈 **Spending Trends (Last 30 Days)**:" ++ nl ++ nl
  ++ "• **Total spending**: " ++ currency_symbol ++ Num.format_f 2 recent ++ nl
  ++ "• **Average daily spending**: " ++ currency_symbol
  ++ Num.format_f 2 (recent / 30) ++ nl.

(** The line that compares the two windows. *)
Definition trend_line (emoji : string) (percent : Q) (direction : string) : string :=
  "• **Trend**: " ++ emoji ++ " " ++ Num.format_f 1 percent ++ "% " ++ direction
  ++ " from previous month" ++ nl.

(** The response states a percent change and its direction. *)
Definition reports_change (response : string) : bool :=
  Text.contains "% increase from previous month" response
  || Text.contains "% decrease from previous month" response.

End Spec.


(** ** Concrete data used to exercise the statements *)

Module Examples.
Import Database Chatbot.

Definition today : Clock.datetime := Clock.mkDate 2024 3 15.

Definition salary_and_food : list Spec.entry :=
  [ Spec.mkEntry "income" "Salary" 1000 "2024-01-01" "";
    Spec.mkEntry "expense" "Food" 200 "2024-01-05" "" ].

Definition ledger : store := Spec.add_all (init_db None) salary_and_food.

Definition fresh : world := mkWorld (init_db None) today.

Definition funded : world := mkWorld ledger today.

(** Other rows, the same totals. *)
Definition split_salary : store :=
  Spec.add_all (init_db None)
    [ Spec.mkEntry "income" "Salary" 600 "2024-01-01" "";
      Spec.mkEntry "expense" "Food" 200 "2024-01-05" "";
      Spec.mkEntry "income" "Freelance" 400 "2024-01-20" "" ].

Definition food_and_transport : list transaction :=
  [ mkTransaction 1 "expense" "Food" 60 "2024-03-01" "";
    mkTransaction 2 "expense" "Transport" 40 "2024-03-02" "" ].

(** The same expenses, after one expense in the month before. *)
Definition with_february : list transaction :=
  mkTransaction 3 "expense" "Food" 50 "2024-02-01" "" :: food_and_transport.

End Examples.


(** ** Histories of the store *)

Module Ops.
Import Database.

(** One call of [add_transaction] or of [delete_transaction]. *)
Inductive op : Type :=
| Insert (e : Spec.entry)
| Remove (transaction_id : Z).

Definition apply (s : store) (o : op) : store :=
  match o with
  | Insert e => Spec.add_entry s e
  | Remove i => delete_transaction s i
  end.

(** The calls of a history, oldest first. *)
Definition run (s : store) (history : list op) : store := fold_left apply history s.

End Ops.

(** ** The wording of the reports *)

Module Wording.
Import Database Chatbot.

(** The closing list of [get_savings_tips]. *)
Definition general_tips : string :=
  "**General Money-Saving Tips**:" ++ nl
  ++ "✓ Track all your expenses daily" ++ nl
  ++ "✓ Set monthly budget goals for each category" ++ nl
  ++ "✓ Build an emergency fund (3-6 months of expenses)" ++ nl
  ++ "✓ Review and adjust your budget regularly" ++ nl
  ++ "✓ Automate savings transfers" ++ nl.

(** The savings tips for a highest category and its total. *)
Definition savings_tips (currency_symbol highest_category : string)
    (highest_amount : Q) : string :=
  "💡 **Personalized Savings Tips**:" ++ nl ++ nl
  ++ "Your highest spending is on **" ++ highest_category ++ "** ("
  ++ currency_symbol ++ Num.format_f 2 highest_amount ++ "). "
  ++ dict_get tips highest_category "Consider reducing this expense."
  ++ nl ++ nl ++ general_tips.

(** The three totals that open the overview. *)
Definition overview_head (currency_symbol : string) (income expenses balance : Q)
    : string :=
  "📊 **Your Financial Overview**:" ++ nl ++ nl
  ++ "• **Total Income**: " ++ currency_symbol ++ Num.format_f 2 income ++ nl
  ++ "• **Total Expenses**: " ++ currency_symbol ++ Num.format_f 2 expenses ++ nl
  ++ "• **Current Balance**: " ++ currency_symbol ++ Num.format_f 2 balance
  ++ nl ++ nl.

Definition great_job (savings_rate : Q) : string :=
  "✅ Great job! You're saving " ++ Num.format_f 1 savings_rate
  ++ "% of your income. Keep it up!" ++ nl.

Definition raise_savings : string :=
  "💡 Try to increase your savings rate to at least 20% for better financial security.".

Definition excellent : string :=
  "🌟 Excellent savings rate! You're building a strong financial foundation.".

Definition overspending : string :=
  "⚠️ You're spending more than you earn. Consider:" ++ nl
  ++ "• Reviewing your expenses and cutting unnecessary costs" ++ nl
  ++ "• Finding ways to increase your income" ++ nl
  ++ "• Creating a strict budget to get back on track".

Definition balanced : string :=
  "➡️ Your income and expenses are balanced. Consider saving more for emergencies.".

(** A line of the breakdown when the total is not positive. *)
Definition breakdown_line_zero (currency_symbol : string) (item : string * Q) : string :=
  "• **" ++ fst item ++ "**: " ++ currency_symbol ++ Num.format_f 2 (snd item)
  ++ " (" ++ Num.format_f 1 0 ++ "%)" ++ nl.

End Wording.

(** ** app.py: the forms of the settings page *)

Module App.
Import Database Chatbot.

(** [date.isoformat()] *)
Definition isoformat (d : Clock.datetime) : string := Clock.strftime_Y_m_d d.

(** What the page shows after a button press: [st.success], [st.error] with
    a fixed text, or [st.error] with the text of a caught exception. *)
Inductive notice : Type :=
| Success (text : string)
| Failure (text : string)
| Caught (context : string) (e : exn).

(** The "Add Income" button.  A failure of the storage itself, which the
    [try] would catch, is outside the model: the store is always available. *)
Definition submit_income (s : store) (amount : Q) (category : string)
    (date : Clock.datetime) (desc : string) : store * notice :=
  if Num.Qltb 0 amount then
    (add_transaction s "income" category amount (isoformat date) desc,
     Success "✅ Income added successfully!")
  else (s, Failure "❌ Amount must be greater than 0").

(** The "Add Expense" button. *)
Definition submit_expense (s : store) (amount : Q) (category : string)
    (date : Clock.datetime) (desc : string) : store * notice :=
  if Num.Qltb 0 amount then
    (add_transaction s "expense" category amount (isoformat date) desc,
     Success "✅ Expense added successfully!")
  else (s, Failure "❌ Amount must be greater than 0").

(** [c.upper()] for one byte, and [s.upper()]. *)
Definition upper_ascii (c : ascii) : ascii :=
  let n := N_of_ascii c in
  if ((97 <=? n) && (n <=? 122))%N then ascii_of_N (n - 32) else c.

Fixpoint upper (s : string) : string :=
  match s with
  | EmptyString => EmptyString
  | String c r => String (upper_ascii c) (upper r)
  end.

(** [str(n)] for an integer. *)
Definition str_int (n : Z) : string :=
  if (n <? 0)%Z then "-" ++ Text.of_Z (- n) else Text.of_Z n.

(** An entry of [transaction_options]. *)
Definition transaction_option (curr_symbol : string) (t : transaction) : string :=
  str_int (id t) ++ " - " ++ date t ++ " - " ++ upper (type t) ++ " - "
  ++ category t ++ " - " ++ curr_symbol ++ Num.format_f 2 (amount t).

(** [s.split(sep)[0]]: what stands before the first occurrence of [sep], and
    all of [s] when there is none. *)
Fixpoint split_head (sep s : string) : string :=
  match s with
  | EmptyString => EmptyString
  | String c r => if prefix sep s then EmptyString else String c (split_head sep r)
  end.

(** White space as [int] skips it, on the ASCII range. *)
Definition is_space (c : ascii) : bool :=
  let n := N_of_ascii c in
  ((9 <=? n) && (n <=? 13) || (28 <=? n) && (n <=? 32))%N.

Fixpoint lstrip (s : string) : string :=
  match s with
  | EmptyString => EmptyString
  | String c r => if is_space c then lstrip r else s
  end.

Fixpoint rstrip (s : string) : string :=
  match s with
  | EmptyString => EmptyString
  | String c r =>
      match rstrip r with
      | EmptyString => if is_space c then EmptyString else String c EmptyString
      | r' => String c r'
      end
  end.

Definition digit_value (c : ascii) : option Z :=
  let n := N_of_ascii c in
  if ((48 <=? n) && (n <=? 57))%N then Some (Z.of_N (n - 48)) else None.

Definition is_digit (c : ascii) : bool :=
  match digit_value c with
  | Some _ => true
  | None => false
  end.

(** No character of [s] is white space. *)
Definition no_space (s : string) : Prop :=
  forall c, In c (list_ascii_of_string s) -> is_space c = false.

(** Decimal digits, with single underscores allowed between two digits. *)
Fixpoint digits (s : string) (acc : Z) (after_digit : bool) : option Z :=
  match s with
  | EmptyString => if after_digit then Some acc else None
  | String c r =>
      match digit_value c with
      | Some d => digits r (10 * acc + d) true
      | None => if Ascii.eqb c "_" && after_digit then digits r acc false else None
      end
  end.

(** [int(s)] in base 10, on ASCII text: surrounding white space, an optional
    sign, then digits. *)
Definition int (s : string) : result Z :=
  let body := rstrip (lstrip s) in
  let parsed :=
    match body with
    | EmptyString => None
    | String c r =>
        if Ascii.eqb c "-" then option_map Z.opp (digits r 0 false)
        else if Ascii.eqb c "+" then digits r 0 false
        else digits body 0 false
    end in
  match parsed with
  | Some n => Ok n
  | None => Raise ValueError
  end.

(** The "Delete" button, with the option the selectbox holds given by its
    index; the selectbox offers the indices below the number of options, and
    without any transaction the button is not shown. *)
Definition delete_selected (s : store) (curr_symbol : string) (selected : nat)
    : store * option notice :=
  let transactions := get_transactions s in
  let transaction_options := map (transaction_option curr_symbol) transactions in
  match nth_error transaction_options selected with
  | None => (s, None)
  | Some transaction_to_delete =>
      match int (split_head " - " transaction_to_delete) with
      | Ok transaction_id =>
          (delete_transaction s transaction_id,
           Some (Success "✅ Transaction deleted successfully!"))
      | Raise e => (s, Some (Caught "Error deleting transaction: " e))
      end
  end.

(** A button press on the settings page. *)
Inductive press : Type :=
| AddIncome (amount : Q) (category : string) (date : Clock.datetime) (desc : string)
| AddExpense (amount : Q) (category : string) (date : Clock.datetime) (desc : string)
| Delete (curr_symbol : string) (selected : nat).

Definition settings (s : store) (p : press) : store :=
  match p with
  | AddIncome amount category date desc =>
      fst (submit_income s amount category date desc)
  | AddExpense amount category date desc =>
      fst (submit_expense s amount category date desc)
  | Delete curr_symbol selected => fst (delete_selected s curr_symbol selected)
  end.

(** The store after a run of button presses on a database that [init_db]
    has just created. *)
Definition session (presses : list press) : store :=
  fold_left settings presses (init_db None).

(** What the forms store: one of the two types, a positive amount and the
    ISO form of a date. *)
Definition from_form (t : transaction) : Prop :=
  (type t = "income" \/ type t = "expense")
  /\ (0 < amount t)%Q
  /\ exists d, date t = isoformat d.

End App.

(** ** Calendar dates and their ISO form *)

Module Dates.
Import Database.

(** The ranges of the fields of a [datetime.date]. *)
Definition valid (d : Clock.datetime) : Prop :=
  (1 <= Clock.year d <= 9999 /\ 1 <= Clock.month d <= 12 /\ 1 <= Clock.day d <= 31)%Z.

(** The order of the calendar: by year, then month, then day. *)
Definition compare (a b : Clock.datetime) : comparison :=
  match (Clock.year a ?= Clock.year b)%Z with
  | Eq => match (Clock.month a ?= Clock.month b)%Z with
          | Eq => (Clock.day a ?= Clock.day b)%Z
          | r => r
          end
  | r => r
  end.

Definition leb (a b : Clock.datetime) : bool :=
  match compare a b with Gt => false | _ => true end.

Definition ltb (a b : Clock.datetime) : bool :=
  match compare a b with Lt => true | _ => false end.

Definition same_month (a b : Clock.datetime) : bool :=
  (Clock.year a =? Clock.year b)%Z && (Clock.month a =? Clock.month b)%Z.

(** The number a string of decimal digits stands for, after [acc]. *)
Fixpoint horner (s : string) (acc : Z) : Z :=
  match s with
  | EmptyString => acc
  | String c r => horner r (10 * acc + Z.of_N (N_of_ascii c - 48))
  end.

Definition all_digits (s : string) : Prop :=
  Forall (fun c => App.is_digit c = true) (list_ascii_of_string s).

(** A transaction together with the date its [date] field is the ISO form
    of. *)
Definition dated (p : transaction * Clock.datetime) : Prop :=
  date (fst p) = App.isoformat (snd p) /\ valid (snd p).

End Dates.

(** ** Dated sample records *)

Module Samples.
Import Database.

Definition this_and_last_month : list (transaction * Clock.datetime) :=
  [ (mkTransaction 1 "expense" "Food" 60 "2024-03-01" "", Clock.mkDate 2024 3 1);
    (mkTransaction 2 "expense" "Transport" 40 "2024-03-02" "", Clock.mkDate 2024 3 2);
    (mkTransaction 3 "expense" "Food" 50 "2024-02-01" "", Clock.mkDate 2024 2 1);
    (mkTransaction 4 "income" "Salary" 1000 "2024-03-05" "", Clock.mkDate 2024 3 5) ].

End Samples.


(** * Properties *)

Import Database Chatbot.

(** ** Substring search *)

Lemma prefix_app (p s : string) :
  prefix p s = true <-> exists r, s = p ++ r.
Proof.
  revert s; induction p as [|c p IH]; intros s; simpl.
  - destruct s; split; eauto.
  - destruct s as [|d s]; simpl.
    + split; [discriminate | intros [r Hr]; discriminate].
    + destruct (Ascii.ascii_dec c d) as [->|Hcd].
      * rewrite IH. split; intros [r Hr]; exists r; congruence.
      * split; [discriminate | intros [r Hr]; congruence].
Qed.

(** [sub in s] holds exactly when [s] splits around an occurrence of [sub]. *)
Lemma contains_app (sub s : string) :
  Text.contains sub s = true <-> exists a b, s = a ++ sub ++ b.
Proof.
  induction s as [|c s IH]; cbn [Text.contains].
  - rewrite prefix_app. split.
    + intros [r Hr]. exists "", r. exact Hr.
    + intros [a [b H]]. destruct a; simpl in H; [eauto | discriminate].
  - rewrite orb_true_iff, IH. split.
    + intros [H | [a [b H]]].
      * apply prefix_app in H as [r Hr]. exists "", r. exact Hr.
      * exists (String c a), b. simpl. now rewrite H.
    + intros [a [b H]]. destruct a as [|d a]; simpl in H.
      * left. apply prefix_app. eauto.
      * right. exists a, b. congruence.
Qed.

(** ** Dispatch *)

(** [find] returns the first element that satisfies the predicate. *)
Lemma find_first {A : Type} (f : A -> bool) (pre post : list A) (x : A) :
  forallb (fun y => negb (f y)) pre = true -> f x = true ->
  find f (pre ++ x :: post)%list = Some x.
Proof.
  induction pre as [|y pre IH]; simpl; intros Hpre Hx.
  - now rewrite Hx.
  - apply andb_true_iff in Hpre as [Hy Hpre].
    apply negb_true_iff in Hy. rewrite Hy. auto.
Qed.

Lemma select_first (s : string) (pre post : list ((string -> bool) * Spec.branch))
    (p : string -> bool) (b : Spec.branch) :
  Spec.rules = (pre ++ (p, b) :: post)%list ->
  forallb (fun r => negb (fst r s)) pre = true -> p s = true ->
  Spec.select s = b.
Proof.
  intros Hr Hpre Hp. unfold Spec.select. rewrite Hr.
  rewrite (find_first (fun r => fst r s) pre post (p, b)); auto.
Qed.

Lemma select_none (s : string) :
  forallb (fun r => negb (fst r s)) Spec.rules = true -> Spec.select s = Spec.Overview.
Proof.
  intros H. unfold Spec.select.
  destruct (find (fun r => fst r s) Spec.rules) as [r|] eqn:E; [|reflexivity].
  apply find_some in E as [Hin Hr].
  rewrite forallb_forall in H. apply H in Hin. now rewrite Hr in Hin.
Qed.

(** The [if]/[elif] chain is the handler of the selected branch. *)
Lemma dispatch_handler (w : world) (user_input : string)
    (transactions : list transaction) (currency_symbol : string) :
  get_chatbot_response w user_input transactions currency_symbol
  = Spec.handler (Spec.select (Text.lower user_input)) w transactions currency_symbol.
Proof.
  unfold get_chatbot_response, Spec.select, Spec.rules.
  cbn [find fst snd].
  repeat match goal with
         | |- context [if ?c then _ else _] =>
             lazymatch c with
             | context [Text.contains] => destruct c; [reflexivity|]
             end
         end.
  reflexivity.
Qed.

Lemma find_split {A : Type} (f : A -> bool) (l : list A) (x : A) :
  find f l = Some x ->
  exists pre post,
    l = (pre ++ x :: post)%list
    /\ forallb (fun y => negb (f y)) pre = true /\ f x = true.
Proof.
  induction l as [|y l IH]; simpl; [discriminate|].
  destruct (f y) eqn:E.
  - intros H. inversion H; subst. exists [], l. auto.
  - intros H. destruct (IH H) as (pre & post & -> & Hpre & Hx).
    exists (y :: pre), post. simpl. rewrite E. auto.
Qed.

(** A branch other than the overview is selected exactly when its rule holds
    and every rule before it fails. *)
Lemma select_iff (s : string) (b : Spec.branch) :
  b <> Spec.Overview ->
  Spec.select s = b
  <-> exists pre p post,
        Spec.rules = (pre ++ (p, b) :: post)%list
        /\ forallb (fun r => negb (fst r s)) pre = true /\ p s = true.
Proof.
  intros Hb. split.
  - unfold Spec.select.
    destruct (find (fun r => fst r s) Spec.rules) as [[p b']|] eqn:E.
    + simpl. intros <-. apply find_split in E as (pre & post & Hr & Hpre & Hp).
      exists pre, p, post. auto.
    + intros H. symmetry in H. contradiction.
  - intros (pre & p & post & Hr & Hpre & Hp). eapply select_first; eassumption.
Qed.

(** The budget branch is selected exactly when the text holds "budget" or
    "suggest" and none of the four earlier predicates fires. *)
Lemma select_budget (s : string) :
  Spec.select s = Spec.Budget
  <-> (Text.contains "spend" s && Text.contains "month" s = false
       /\ Text.contains "total expense" s || Text.contains "how much did i spend" s = false
       /\ Text.contains "total income" s || Text.contains "how much did i earn" s = false
       /\ Text.contains "balance" s || Text.contains "how much do i have" s = false
       /\ Text.contains "budget" s || Text.contains "suggest" s = true).
Proof.
  unfold Spec.select, Spec.rules. cbn [find fst snd].
  destruct (Text.contains "spend" s && Text.contains "month" s);
    [split; [discriminate | intros (H & _); discriminate H]|].
  destruct (Text.contains "total expense" s || Text.contains "how much did i spend" s);
    [split; [discriminate | intros (_ & H & _); discriminate H]|].
  destruct (Text.contains "total income" s || Text.contains "how much did i earn" s);
    [split; [discriminate | intros (_ & _ & H & _); discriminate H]|].
  destruct (Text.contains "balance" s || Text.contains "how much do i have" s);
    [split; [discriminate | intros (_ & _ & _ & H & _); discriminate H]|].
  destruct (Text.contains "budget" s || Text.contains "suggest" s).
  - split; auto.
  - split; [|intros (_ & _ & _ & _ & H); discriminate H].
    repeat match goal with
           | |- context [if ?c then _ else _] => destruct c
           end; discriminate.
Qed.

Lemma rules_not_overview (r : (string -> bool) * Spec.branch) :
  In r Spec.rules -> snd r <> Spec.Overview.
Proof.
  unfold Spec.rules. simpl.
  intros H. repeat (destruct H as [<- | H]; [discriminate|]). destruct H.
Qed.

Lemma select_overview_iff (s : string) :
  Spec.select s = Spec.Overview
  <-> forallb (fun r => negb (fst r s)) Spec.rules = true.
Proof.
  split; [|apply select_none].
  unfold Spec.select.
  destruct (find (fun r => fst r s) Spec.rules) as [r|] eqn:E.
  - apply find_some in E as [Hin _]. intros H.
    exfalso. exact (rules_not_overview r Hin H).
  - intros _. apply forallb_forall. intros r Hin.
    apply negb_true_iff. exact (find_none _ _ E r Hin).
Qed.


(** ** Numbers: every operation respects equality of rationals *)

#[export] Instance Qltb_comp : Proper (Qeq ==> Qeq ==> eq) Num.Qltb.
Proof. intros a b Hab c d Hcd. unfold Num.Qltb. now rewrite Hab, Hcd. Qed.

Lemma Qltb_lt (a b : Q) : Num.Qltb a b = true <-> (a < b)%Q.
Proof.
  unfold Num.Qltb. rewrite Qlt_alt. destruct (a ?= b)%Q; split; congruence.
Qed.

Lemma Qltb_ge (a b : Q) : Num.Qltb a b = false <-> (b <= a)%Q.
Proof.
  rewrite <- not_true_iff_false, Qltb_lt. split.
  - apply Qnot_lt_le.
  - intros H1 H2. exact (Qlt_not_le _ _ H2 H1).
Qed.

#[export] Instance round_half_even_comp : Proper (Qeq ==> eq) Num.round_half_even.
Proof.
  intros a b Hab. unfold Num.round_half_even.
  rewrite (Qfloor_comp a b Hab).
  assert (E : (a - inject_Z (Qfloor b) == b - inject_Z (Qfloor b))%Q) by now rewrite Hab.
  now rewrite E.
Qed.

#[export] Instance format_f_comp : Proper (eq ==> Qeq ==> eq) Num.format_f.
Proof.
  intros d ? <- a b Hab. unfold Num.format_f.
  assert (E : (Qabs a * inject_Z (10 ^ Z.of_nat d) == Qabs b * inject_Z (10 ^ Z.of_nat d))%Q)
    by now rewrite Hab.
  now rewrite E, Hab.
Qed.

Lemma div_ok (a b : Q) : ~ (b == 0)%Q -> Num.div a b = Ok (a / b)%Q.
Proof.
  intros Hb. unfold Num.div.
  destruct (Qeq_bool b 0) eqn:E; [|reflexivity].
  apply Qeq_bool_eq in E. contradiction.
Qed.

Lemma fold_left_Qplus (l : list Q) (a : Q) :
  (fold_left Qplus l a == a + fold_left Qplus l 0)%Q.
Proof.
  revert a; induction l as [|x l IH]; intros a; simpl.
  - ring.
  - rewrite (IH (a + x)%Q), (IH (0 + x)%Q). ring.
Qed.

Lemma sum_cons (x : Q) (l : list Q) : (Num.sum (x :: l) == x + Num.sum l)%Q.
Proof.
  unfold Num.sum. simpl. rewrite fold_left_Qplus. ring.
Qed.

Lemma sum_app (l1 l2 : list Q) : (Num.sum (l1 ++ l2) == Num.sum l1 + Num.sum l2)%Q.
Proof.
  induction l1 as [|x l1 IH]; simpl.
  - unfold Num.sum at 2. simpl. ring.
  - rewrite !sum_cons, IH. ring.
Qed.

(** ** The order on strings *)

Lemma ltb_leb (a b : string) : Text.lt a b = true -> Text.le a b = true.
Proof.
  unfold Text.lt, Text.le, String.ltb, String.leb.
  destruct (a ?= b)%string; congruence.
Qed.

Lemma ltb_false_leb (a b : string) : Text.lt a b = false -> Text.le b a = true.
Proof.
  unfold Text.lt, Text.le, String.ltb, String.leb.
  rewrite (String.compare_antisym a b).
  destruct (b ?= a)%string; simpl; congruence.
Qed.

Lemma compare_trans (a b c : string) (r : comparison) :
  (a ?= b)%string = r -> (b ?= c)%string = r -> (a ?= c)%string = r.
Proof.
  revert b c. induction a as [|x a IH]; intros [|y b] [|z c]; simpl; try congruence.
  unfold Ascii.compare.
  destruct (N.compare_spec (N_of_ascii x) (N_of_ascii y)) as [Exy|Lxy|Gxy];
    destruct (N.compare_spec (N_of_ascii y) (N_of_ascii z)) as [Eyz|Lyz|Gyz];
    destruct (N.compare_spec (N_of_ascii x) (N_of_ascii z)) as [Exz|Lxz|Gxz];
    try lia; try congruence; intros; subst; try congruence; eauto.
Qed.

Lemma leb_trans (a b c : string) :
  Text.le a b = true -> Text.le b c = true -> Text.le a c = true.
Proof.
  unfold Text.le, String.leb. intros Hab Hbc.
  destruct (a ?= b)%string eqn:Eab; try discriminate;
    destruct (b ?= c)%string eqn:Ebc; try discriminate.
  - now rewrite (compare_trans a b c Eq Eab Ebc).
  - apply String.compare_eq_iff in Eab. subst. now rewrite Ebc.
  - apply String.compare_eq_iff in Ebc. subst. now rewrite Eab.
  - now rewrite (compare_trans a b c Lt Eab Ebc).
Qed.

(** ** The transaction store *)

Lemma insert_desc_perm (t : transaction) (l : list transaction) :
  Permutation (insert_desc t l) (t :: l).
Proof.
  induction l as [|u r IH]; simpl.
  - apply Permutation_refl.
  - destruct (Text.lt (date t) (date u)).
    + eapply perm_trans; [apply perm_skip, IH | apply perm_swap].
    + apply Permutation_refl.
Qed.

Lemma order_by_date_desc_perm (l : list transaction) :
  Permutation (order_by_date_desc l) l.
Proof.
  induction l as [|t l IH]; simpl.
  - apply perm_nil.
  - eapply perm_trans; [apply insert_desc_perm | apply perm_skip, IH].
Qed.

Lemma insert_desc_sorted (t : transaction) (l : list transaction) :
  StronglySorted Spec.date_ge l -> StronglySorted Spec.date_ge (insert_desc t l).
Proof.
  induction 1 as [|u r Hr IH Hu]; simpl.
  - repeat constructor.
  - destruct (Text.lt (date t) (date u)) eqn:E.
    + constructor; [exact IH|].
      apply (Permutation_Forall (Permutation_sym (insert_desc_perm t r))).
      constructor; [|exact Hu].
      apply ltb_leb, E.
    + apply ltb_false_leb in E.
      constructor; [constructor; assumption|].
      constructor; [exact E|].
      eapply Forall_impl; [|exact Hu].
      intros x Hx. unfold Spec.date_ge in *. eapply leb_trans; eassumption.
Qed.

Lemma order_by_date_desc_sorted (l : list transaction) :
  StronglySorted Spec.date_ge (order_by_date_desc l).
Proof.
  induction l as [|t l IH]; simpl.
  - constructor.
  - apply insert_desc_sorted, IH.
Qed.

Lemma get_transactions_In (s : store) (t : transaction) :
  In t (get_transactions s) <-> In t (rows s).
Proof.
  unfold get_transactions. split; apply Permutation_in.
  - apply order_by_date_desc_perm.
  - apply Permutation_sym, order_by_date_desc_perm.
Qed.

Lemma add_all_rows (l : list Spec.entry) (s : store) :
  rows (Spec.add_all s l) = (rows s ++ Spec.assign_ids (seq s) l)%list
  /\ seq (Spec.add_all s l) = (seq s + Z.of_nat (List.length l))%Z.
Proof.
  revert s. induction l as [|e l IH]; intros s; simpl.
  - rewrite app_nil_r. split; [reflexivity | lia].
  - destruct (IH (Spec.add_entry s e)) as [Hr Hs].
    unfold Spec.add_all in *. rewrite Hr, Hs. simpl.
    rewrite <- app_assoc. split; [reflexivity | lia].
Qed.

Lemma assign_ids_fields (n : Z) (l : list Spec.entry) :
  map Spec.fields (Spec.assign_ids n l) = l.
Proof.
  revert n. induction l as [|[ty c a d ds] l IH]; intros n; simpl.
  - reflexivity.
  - now rewrite IH.
Qed.

Lemma assign_ids_above (n : Z) (l : list Spec.entry) :
  Forall (fun t => n < id t <= n + Z.of_nat (List.length l))%Z (Spec.assign_ids n l).
Proof.
  revert n. induction l as [|e l IH]; intros n; simpl.
  - constructor.
  - constructor; [simpl; lia|].
    eapply Forall_impl; [|apply IH]. simpl. intros t Ht. lia.
Qed.

Lemma assign_ids_sorted (n : Z) (l : list Spec.entry) :
  StronglySorted Z.lt (map id (Spec.assign_ids n l)).
Proof.
  revert n. induction l as [|e l IH]; intros n; simpl.
  - constructor.
  - constructor; [apply IH|].
    apply Forall_map. eapply Forall_impl; [|apply assign_ids_above].
    simpl. intros t Ht. lia.
Qed.

Lemma sorted_app (l1 l2 : list Z) (n : Z) :
  StronglySorted Z.lt l1 -> StronglySorted Z.lt l2 ->
  Forall (fun x => x <= n)%Z l1 -> Forall (fun x => n < x)%Z l2 ->
  StronglySorted Z.lt (l1 ++ l2).
Proof.
  intros H1 H2 B1 B2. induction H1 as [|x l1 H1 IH Hx]; simpl.
  - exact H2.
  - inversion B1; subst. constructor; [auto|].
    apply Forall_app. split; [exact Hx|].
    eapply Forall_impl; [|exact B2]. simpl. intros y Hy. lia.
Qed.

Lemma sorted_NoDup (l : list Z) : StronglySorted Z.lt l -> NoDup l.
Proof.
  induction 1 as [|x l Hl IH Hx]; constructor; [|exact IH].
  intros Hin. rewrite Forall_forall in Hx. specialize (Hx x Hin). lia.
Qed.

(** The store invariant: established by [init_db] on a fresh file and kept
    by every operation. *)
Lemma well_formed_init : Spec.well_formed (init_db None).
Proof. repeat split; try constructor; simpl; lia. Qed.

Lemma well_formed_add_all (s : store) (l : list Spec.entry) :
  Spec.well_formed s -> Spec.well_formed (Spec.add_all s l).
Proof.
  intros (Hs & Hb & H0). destruct (add_all_rows l s) as [Hr Hq].
  unfold Spec.well_formed. rewrite Hr, Hq. repeat split; [| |lia].
  - rewrite map_app. apply (sorted_app _ _ (seq s)); auto.
    + apply assign_ids_sorted.
    + apply Forall_map. eapply Forall_impl; [|exact Hb]. simpl. intros t Ht. lia.
    + apply Forall_map. eapply Forall_impl; [|apply assign_ids_above].
      simpl. intros t Ht. lia.
  - apply Forall_app. split.
    + eapply Forall_impl; [|exact Hb]. simpl. intros t Ht. lia.
    + eapply Forall_impl; [|apply assign_ids_above]. simpl. intros t Ht. lia.
Qed.

Lemma well_formed_add (s : store) (ty c : string) (a : Q) (d ds : string) :
  Spec.well_formed s -> Spec.well_formed (add_transaction s ty c a d ds).
Proof.
  intros H. exact (well_formed_add_all s [Spec.mkEntry ty c a d ds] H).
Qed.

Lemma sorted_filter {A : Type} (R : A -> A -> Prop) (f : A -> bool) (l : list A) :
  StronglySorted R l -> StronglySorted R (filter f l).
Proof.
  induction 1 as [|x l Hl IH Hx]; simpl; [constructor|].
  destruct (f x); [|exact IH].
  constructor; [exact IH|].
  rewrite Forall_forall in *. intros y Hy. apply Hx.
  apply filter_In in Hy. tauto.
Qed.

Lemma well_formed_delete (s : store) (i : Z) :
  Spec.well_formed s -> Spec.well_formed (delete_transaction s i).
Proof.
  intros (Hs & Hb & H0). unfold Spec.well_formed, delete_transaction. simpl.
  repeat split; [| |exact H0].
  - clear Hb. induction (rows s) as [|t r IH]; simpl in *; [constructor|].
    inversion Hs as [|? ? Hr Ht]; subst.
    destruct (negb (id t =? i)%Z); simpl; auto.
    constructor; auto.
    rewrite Forall_forall in *. intros y Hy. apply Ht.
    rewrite in_map_iff in *. destruct Hy as [u [Hu Hin]].
    apply filter_In in Hin. exists u. tauto.
  - rewrite Forall_forall in *. intros t Ht. apply Hb.
    apply filter_In in Ht. tauto.
Qed.

Lemma add_then_list_from (s : store) (l : list Spec.entry) :
  let out := get_transactions (Spec.add_all s l) in
  Permutation out (rows s ++ Spec.assign_ids (seq s) l)
  /\ StronglySorted Spec.date_ge out
  /\ (Spec.well_formed s -> NoDup (map id out)).
Proof.
  cbv zeta. unfold get_transactions.
  destruct (add_all_rows l s) as [Hr _].
  split; [|split].
  - rewrite <- Hr. apply order_by_date_desc_perm.
  - apply order_by_date_desc_sorted.
  - intros Hwf. apply (well_formed_add_all s l) in Hwf as [Hs _].
    apply sorted_NoDup in Hs.
    eapply Permutation_NoDup; [|exact Hs].
    apply Permutation_map, Permutation_sym, order_by_date_desc_perm.
Qed.

(** C4: after any sequence of insertions into a fresh store, the listing
    holds exactly the inserted records (as a multiset of their five
    user-supplied fields), each under an id of its own, in descending order
    of date. *)
Theorem add_then_list (l : list Spec.entry) :
  let out := get_transactions (Spec.add_all (init_db None) l) in
  Permutation (map Spec.fields out) l
  /\ NoDup (map id out)
  /\ StronglySorted Spec.date_ge out.
Proof.
  destruct (add_then_list_from (init_db None) l) as (Hp & Hs & Hn).
  cbv zeta. split; [|split].
  - apply (Permutation_map Spec.fields) in Hp.
    simpl in Hp. now rewrite assign_ids_fields in Hp.
  - apply Hn, well_formed_init.
  - exact Hs.
Qed.

Lemma filter_all {A : Type} (f : A -> bool) (l : list A) :
  (forall x, In x l -> f x = true) -> filter f l = l.
Proof.
  induction l as [|x l IH]; simpl; intros H; [reflexivity|].
  rewrite (H x (or_introl eq_refl)). f_equal. apply IH. auto.
Qed.

(** C5: after [delete_transaction s i] the listing holds no record of id
    [i] and still holds every record of another id; when no record has id [i]
    the store is unchanged.  The operation is total: it cannot raise. *)
Theorem delete_then_list (s : store) (i : Z) :
  (forall t, In t (get_transactions (delete_transaction s i)) -> id t <> i)
  /\ (forall t, In t (get_transactions s) -> id t <> i ->
                In t (get_transactions (delete_transaction s i)))
  /\ (~ In i (map id (rows s)) -> delete_transaction s i = s).
Proof.
  split; [|split].
  - intros t Ht. apply get_transactions_In in Ht. simpl in Ht.
    apply filter_In in Ht as [_ Ht]. apply negb_true_iff in Ht.
    now apply Z.eqb_neq.
  - intros t Ht Hne. apply get_transactions_In. simpl.
    apply filter_In. split; [now apply get_transactions_In|].
    apply negb_true_iff. now apply Z.eqb_neq.
  - intros Habs. destruct s as [r n]. unfold delete_transaction. simpl in *.
    f_equal. apply filter_all. intros t Ht.
    apply negb_true_iff, Z.eqb_neq. intros <-. apply Habs.
    now apply in_map.
Qed.

Lemma delete_then_list_witness :
  (forall t, In t (get_transactions (delete_transaction Examples.ledger 2)) -> id t <> 2%Z)
  /\ delete_transaction Examples.ledger 7 = Examples.ledger.
Proof.
  split.
  - exact (proj1 (delete_then_list Examples.ledger 2)).
  - apply (proj2 (proj2 (delete_then_list Examples.ledger 7))).
    simpl. intros [H | [H | H]]; [discriminate H | discriminate H | exact H].
Defined.

(** ** The summary *)

Lemma sum_where_filter (ty : string) (l : list transaction) :
  (Num.sum (map amount (filter (fun t => String.eqb (type t) ty) l))
   == Spec.sum_where ty l)%Q.
Proof.
  induction l as [|t l IH]; simpl.
  - reflexivity.
  - destruct (String.eqb (type t) ty); simpl; [|exact IH].
    now rewrite sum_cons, IH.
Qed.

Lemma or_zero_select (s : store) (ty : string) :
  (or_zero (select_sum_amount s ty) == Spec.sum_where ty (rows s))%Q.
Proof.
  unfold select_sum_amount. rewrite <- sum_where_filter.
  destruct (filter (fun t => String.eqb (type t) ty) (rows s)) as [|t l]; simpl.
  - reflexivity.
  - destruct (Qeq_bool (Num.sum (amount t :: map amount l)) 0) eqn:E.
    + apply Qeq_bool_eq in E. now rewrite E.
    + reflexivity.
Qed.


(** C10: a record whose type is neither ['income'] nor ['expense'] is stored
    as it is and listed, while the summary is the one of the store
    without it. *)
Theorem add_untyped_transaction (s : store) (ty c : string) (a : Q) (d ds : string) :
  ty <> "income" -> ty <> "expense" ->
  In (mkTransaction (seq s + 1) ty c a d ds)
     (get_transactions (add_transaction s ty c a d ds))
  /\ get_summary (add_transaction s ty c a d ds) = get_summary s.
Proof.
  intros Hi He. split.
  - apply get_transactions_In. simpl. apply in_or_app. right. now left.
  - apply String.eqb_neq in Hi, He.
    unfold get_summary, select_sum_amount. simpl.
    rewrite !filter_app. simpl. rewrite Hi, He, !app_nil_r. reflexivity.
Qed.

Lemma add_untyped_transaction_witness :
  In (mkTransaction 3 "transfer" "Other" 50 "2024-02-01" "")
     (get_transactions
        (add_transaction Examples.ledger "transfer" "Other" 50 "2024-02-01" ""))
  /\ get_summary (add_transaction Examples.ledger "transfer" "Other" 50 "2024-02-01" "")
     = get_summary Examples.ledger.
Proof.
  apply (add_untyped_transaction Examples.ledger "transfer" "Other" 50 "2024-02-01" "");
    discriminate.
Defined.

(** ** Responses *)

Lemma append_assoc (a b c : string) : (a ++ b) ++ c = a ++ b ++ c.
Proof.
  induction a as [|x a IH]; simpl; [reflexivity | now rewrite IH].
Qed.



(** ** No branch raises *)

Lemma percent_of_ok (a total : Q) :
  exists p, percent_of a total = Ok p
            /\ ((0 < total)%Q -> (p == a / total * 100)%Q)
            /\ ((total <= 0)%Q -> p = 0%Q).
Proof.
  unfold percent_of. destruct (Num.Qltb 0 total) eqn:E.
  - apply Qltb_lt in E. rewrite div_ok.
    + simpl. eexists. split; [reflexivity|]. split; [reflexivity|].
      intros H. exfalso. exact (Qlt_not_le _ _ E H).
    + intros H. rewrite H in E. discriminate E.
  - apply Qltb_ge in E. exists 0%Q. split; [reflexivity|]. split; [|reflexivity].
    intros H. exfalso. exact (Qlt_not_le _ _ H E).
Qed.

Lemma for_each_ok {A B : Type} (body : B -> A -> result B) (step : B -> A -> B)
    (l : list A) (acc : B) :
  (forall b a, In a l -> body b a = Ok (step b a)) ->
  for_each body l acc = Ok (fold_left step l acc).
Proof.
  revert acc. induction l as [|a l IH]; intros acc H; simpl; [reflexivity|].
  rewrite (H acc a (or_introl eq_refl)). simpl. apply IH.
  intros b x Hx. apply H. now right.
Qed.

Lemma get_expense_breakdown_total (transactions : list transaction) (sym : string) :
  exists msg, get_expense_breakdown transactions sym = Ok msg.
Proof.
  unfold get_expense_breakdown.
  destruct (category_totals transactions) as [|x d] eqn:E; [eauto|].
  set (total := Num.sum (map snd (x :: d))).
  set (items := sorted_by_amount_desc (x :: d)).
  rewrite (for_each_ok _
             (fun response '(category, amount) =>
                response ++ "• **" ++ category ++ "**: " ++ sym
                ++ Num.format_f 2 amount ++ " ("
                ++ Num.format_f 1 (if Num.Qltb 0 total then amount / total * 100 else 0)%Q
                ++ "%)" ++ nl)).
  - simpl. eauto.
  - intros b [c a] _. unfold percent_of.
    destruct (Num.Qltb 0 total) eqn:Et; [|reflexivity].
    rewrite div_ok; [reflexivity|].
    apply Qltb_lt in Et. intros H. rewrite H in Et. discriminate Et.
Qed.

Lemma guarded_change_ok (a b : Q) :
  exists c,
    (if Num.Qltb 0 b then q <- Num.div a b ;; Ok (q * 100)%Q else Ok 0%Q) = Ok c
    /\ ((0 < b)%Q -> (c == a / b * 100)%Q)
    /\ ((b <= 0)%Q -> c = 0%Q).
Proof. exact (percent_of_ok a b). Qed.

Lemma get_spending_trends_total (w : world) (transactions : list transaction)
    (sym : string) :
  exists msg, get_spending_trends w transactions sym = Ok msg.
Proof.
  unfold get_spending_trends.
  destruct transactions as [|t ts]; [eauto|].
  destruct (filter _ (t :: ts)) as [|r rs]; [eauto|].
  rewrite div_ok by discriminate. cbn [bind].
  match goal with |- context [filter ?f (t :: ts)] => destruct (filter f (t :: ts)) end;
    [eauto|].
  match goal with
  | |- context [if Num.Qltb 0 ?b then q <- Num.div ?a ?b ;; _ else _] =>
      destruct (guarded_change_ok a b) as (c & -> & _)
  end.
  simpl. eauto.
Qed.

Lemma fold_best_In (r : list (string * Q)) (x : string * Q) :
  In (fold_left (fun best y => if Num.Qltb (snd best) (snd y) then y else best) r x)
     (x :: r).
Proof.
  revert x. induction r as [|y r IH]; intros x; simpl.
  - now left.
  - destruct (Num.Qltb (snd x) (snd y)).
    + right. apply IH.
    + destruct (IH x) as [H | H]; [now left | right; now right].
Qed.

Lemma dict_item_ok {V : Type} (d : dict V) (k : string) :
  In k (map fst d) -> exists v, dict_item d k = Ok v /\ In (k, v) d.
Proof.
  induction d as [|[k' v'] d IH]; simpl; [tauto|].
  intros H. destruct (String.eqb k' k) eqn:E.
  - apply String.eqb_eq in E. subst. eauto.
  - destruct H as [H | H]; [apply String.eqb_neq in E; contradiction|].
    destruct (IH H) as (v & Hv & Hin). eauto.
Qed.

Lemma max_key_ok (d : dict Q) :
  d <> [] -> exists k, max_key d = Ok k /\ In k (map fst d).
Proof.
  destruct d as [|x r]; [congruence|]. intros _. simpl.
  eexists. split; [reflexivity|].
  apply (in_map fst (x :: r)), fold_best_In.
Qed.

Lemma get_savings_tips_total (transactions : list transaction) (sym : string) :
  exists msg, get_savings_tips transactions sym = Ok msg.
Proof.
  unfold get_savings_tips.
  destruct (category_totals transactions) as [|x d] eqn:E; [eauto|].
  destruct (max_key_ok (x :: d)) as (k & -> & Hk); [discriminate|].
  destruct (dict_item_ok (x :: d) k Hk) as (v & Hv & _).
  cbn [bind]. rewrite Hv. simpl. eauto.
Qed.

Lemma get_financial_insights_total (w : world) (transactions : list transaction)
    (sym : string) :
  exists msg, get_financial_insights w transactions sym = Ok msg.
Proof.
  unfold get_financial_insights.
  destruct (Num.Qltb 0 (balance (get_summary (db w)))).
  - match goal with
    | |- context [if Num.Qltb 0 ?b then q <- Num.div ?a ?b ;; _ else _] =>
        destruct (guarded_change_ok a b) as (c & -> & _)
    end.
    cbn [bind].
    destruct (Num.Qltb c 20); [eauto|].
    destruct (Qle_bool 40 c); eauto.
  - destruct (Num.Qltb (balance (get_summary (db w))) 0); eauto.
Qed.

(** Whatever the arguments, the store and the clock, a response is a string. *)
Lemma handler_total (b : Spec.branch) (w : world) (transactions : list transaction)
    (sym : string) :
  exists msg, Spec.handler b w transactions sym = Ok msg.
Proof.
  destruct b; simpl; eauto.
  - unfold get_monthly_spending. eauto.
  - unfold get_budget_recommendation.
    destruct (Qeq_bool _ 0); eauto.
  - apply get_expense_breakdown_total.
  - apply get_spending_trends_total.
  - apply get_savings_tips_total.
  - apply get_financial_insights_total.
Qed.

Lemma get_chatbot_response_total (w : world) (user_input : string)
    (transactions : list transaction) (sym : string) :
  exists msg, get_chatbot_response w user_input transactions sym = Ok msg.
Proof.
  rewrite dispatch_handler. apply handler_total.
Qed.

Lemma filter_none {A : Type} (f : A -> bool) (l : list A) :
  (forall x, In x l -> f x = false) -> filter f l = [].
Proof.
  induction l as [|x l IH]; simpl; intros H; [reflexivity|].
  rewrite (H x (or_introl eq_refl)). apply IH. auto.
Qed.

Lemma format_zero : Num.format_f 2 0 = "0.00".
Proof. reflexivity. Qed.

(** C9: with an empty transaction list every question is answered by a
    message and nothing is raised, whichever branch is selected; the branches
    that read only the list answer with their fixed explanatory message.  A
    question about this month's spending, asked when no expense of the list is
    dated in the current month, is answered with an amount of 0.00. *)
Theorem empty_transactions_answered :
  (forall (w : world) (user_input currency_symbol : string),
     exists msg,
       get_chatbot_response w user_input [] currency_symbol = Ok msg
       /\ match Spec.select (Text.lower user_input) with
          | Spec.MonthlySpending =>
              msg = "You spent " ++ currency_symbol ++ "0.00 this month ("
                    ++ Clock.strftime_B_Y (now w) ++ ")."
          | Spec.Breakdown =>
              msg = "📝 No expenses recorded yet. Start adding expenses to see your breakdown!"
          | Spec.Trends =>
              msg = "📊 No transactions to analyze yet. Start tracking to see your spending trends!"
          | Spec.SavingsTips =>
              msg = "💡 Start tracking expenses to get personalized savings tips!"
          | _ => True
          end)
  /\ (forall (w : world) (user_input : string) (transactions : list transaction)
             (currency_symbol : string),
        Spec.select (Text.lower user_input) = Spec.MonthlySpending ->
        (forall t, In t transactions ->
                   is_expense t
                   && Text.startswith (date t) (Clock.strftime_Y_m (now w)) = false) ->
        get_chatbot_response w user_input transactions currency_symbol
        = Ok ("You spent " ++ currency_symbol ++ "0.00 this month ("
              ++ Clock.strftime_B_Y (now w) ++ ").")).
Proof.
  split.
  - intros w user_input sym. rewrite dispatch_handler.
    destruct (Spec.select (Text.lower user_input)) eqn:E;
      try (destruct (handler_total
                       ltac:(first [exact Spec.TotalExpenses | exact Spec.TotalIncome
                                   | exact Spec.Balance])
                       w [] sym) as [msg Hmsg]; simpl in Hmsg |- *; eauto; fail);
      try (simpl; eexists; split; reflexivity).
    + destruct (handler_total Spec.Budget w [] sym) as [msg Hmsg]. eauto.
    + destruct (handler_total Spec.Overview w [] sym) as [msg Hmsg]. eauto.
  - intros w user_input transactions sym Hsel Hnone.
    rewrite dispatch_handler, Hsel. simpl.
    unfold get_monthly_spending. rewrite (filter_none _ _ Hnone). reflexivity.
Qed.

Lemma empty_transactions_answered_witness :
  get_chatbot_response Examples.funded "how much did I spend this month?"
    (get_transactions Examples.ledger) "$"
  = Ok "You spent $0.00 this month (March 2024).".
Proof.
  apply (proj2 empty_transactions_answered Examples.funded
           "how much did I spend this month?" (get_transactions Examples.ledger) "$").
  - reflexivity.
  - intros t Ht. simpl in Ht.
    destruct Ht as [<- | [<- | []]]; reflexivity.
Defined.

(** ** What a response depends on *)

Lemma get_budget_recommendation_comp (w1 w2 : world) (ts : list transaction)
    (sym : string) :
  Spec.summary_eq (get_summary (db w1)) (get_summary (db w2)) ->
  get_budget_recommendation w1 ts sym = get_budget_recommendation w2 ts sym.
Proof.
  intros (Hi & _ & _). unfold get_budget_recommendation.
  generalize dependent (total_income (get_summary (db w1))).
  generalize (total_income (get_summary (db w2))).
  intros i2 i1 Hi. rewrite (Qeqb_comp i1 i2 Hi 0 0 (Qeq_refl 0)).
  destruct (Qeq_bool i2 0); [reflexivity|].
  cbn [fold_left]. now rewrite Hi.
Qed.

Lemma get_financial_insights_comp (w1 w2 : world) (ts : list transaction)
    (sym : string) :
  Spec.summary_eq (get_summary (db w1)) (get_summary (db w2)) ->
  get_financial_insights w1 ts sym = get_financial_insights w2 ts sym.
Proof.
  unfold Spec.summary_eq, get_financial_insights.
  destruct (get_summary (db w1)) as [i1 e1 b1].
  destruct (get_summary (db w2)) as [i2 e2 b2].
  cbn [total_income total_expenses balance]. intros (Hi & He & Hb).
  rewrite (Qltb_comp 0 0 (Qeq_refl 0) b1 b2 Hb).
  rewrite (Qltb_comp b1 b2 Hb 0 0 (Qeq_refl 0)).
  rewrite (Qltb_comp 0 0 (Qeq_refl 0) i1 i2 Hi).
  destruct (Num.Qltb 0 b2).
  - destruct (Num.Qltb 0 i2) eqn:E.
    + apply Qltb_lt in E.
      assert (N2 : ~ (i2 == 0)%Q) by (intros H; rewrite H in E; discriminate E).
      assert (N1 : ~ (i1 == 0)%Q) by (now rewrite Hi).
      rewrite !div_ok by assumption. cbn [bind].
      assert (Hc : (b1 / i1 * 100 == b2 / i2 * 100)%Q) by now rewrite Hi, Hb.
      rewrite (Qltb_comp _ _ Hc 20 20 (Qeq_refl 20)).
      rewrite (Qleb_comp 40 40 (Qeq_refl 40) _ _ Hc).
      destruct (Num.Qltb (b2 / i2 * 100) 20); [|destruct (Qle_bool 40 (b2 / i2 * 100))];
        now rewrite Hc, Hi, He, Hb.
    + cbn [bind]. change (Num.Qltb 0 20) with true. cbv iota.
      now rewrite Hi, He, Hb.
  - destruct (Num.Qltb b2 0); now rewrite Hi, He, Hb.
Qed.

Lemma handler_comp (b : Spec.branch) (w1 w2 : world) (ts : list transaction)
    (sym : string) :
  Spec.summary_eq (get_summary (db w1)) (get_summary (db w2)) ->
  now w1 = now w2 ->
  Spec.handler b w1 ts sym = Spec.handler b w2 ts sym.
Proof.
  intros Hs Hn. pose proof Hs as (Hi & He & Hb).
  destruct b; simpl.
  - unfold get_monthly_spending. now rewrite Hn.
  - now rewrite He.
  - now rewrite Hi.
  - now rewrite Hb.
  - now apply get_budget_recommendation_comp.
  - reflexivity.
  - unfold get_spending_trends. now rewrite Hn.
  - reflexivity.
  - now apply get_financial_insights_comp.
Qed.




(** ** The per-category totals *)

Lemma dict_get_set {V : Type} (d : dict V) (k c : string) (v default : V) :
  dict_get (dict_set d k v) c default
  = if String.eqb k c then v else dict_get d c default.
Proof.
  induction d as [|[k' v'] d IH]; simpl.
  - reflexivity.
  - destruct (String.eqb k' k) eqn:E; simpl.
    + apply String.eqb_eq in E. subst k'. now destruct (String.eqb k c).
    + rewrite IH. destruct (String.eqb k' c) eqn:E'; [|reflexivity].
      apply String.eqb_eq in E'. subst k'.
      rewrite String.eqb_sym in E. now rewrite E.
Qed.

Lemma dict_set_keys {V : Type} (d : dict V) (k c : string) (v : V) :
  In c (map fst (dict_set d k v)) <-> c = k \/ In c (map fst d).
Proof.
  induction d as [|[k' v'] d IH]; simpl.
  - intuition.
  - destruct (String.eqb k' k) eqn:E; simpl.
    + apply String.eqb_eq in E. subst k'. intuition.
    + rewrite IH. intuition.
Qed.

Lemma dict_set_NoDup {V : Type} (d : dict V) (k : string) (v : V) :
  NoDup (map fst d) -> NoDup (map fst (dict_set d k v)).
Proof.
  induction d as [|[k' v'] d IH]; simpl; intros H.
  - constructor; [intros [] | constructor].
  - inversion H as [|? ? Hnin Hd]; subst.
    destruct (String.eqb k' k) eqn:E; simpl.
    + constructor; assumption.
    + constructor; [|auto].
      rewrite dict_set_keys. intros [-> | Hin]; [|contradiction].
      now rewrite String.eqb_refl in E.
Qed.

Lemma dict_set_sum (d : dict Q) (k : string) (a : Q) :
  (Num.sum (map snd (dict_set d k (dict_get d k 0 + a)))
   == Num.sum (map snd d) + a)%Q.
Proof.
  induction d as [|[k' v'] d IH]; simpl.
  - rewrite sum_cons. unfold Num.sum. simpl. ring.
  - destruct (String.eqb k' k); simpl.
    + rewrite !sum_cons. ring.
    + rewrite !sum_cons, IH. ring.
Qed.

Lemma dict_get_In {V : Type} (d : dict V) (c : string) (v default : V) :
  NoDup (map fst d) -> In (c, v) d -> dict_get d c default = v.
Proof.
  induction d as [|[k' v'] d IH]; simpl; intros Hn Hin; [contradiction|].
  inversion Hn as [|? ? Hnin Hd]; subst.
  destruct Hin as [Heq | Hin].
  - inversion Heq; subst. now rewrite String.eqb_refl.
  - destruct (String.eqb k' c) eqn:E; [|auto].
    apply String.eqb_eq in E. subst k'.
    exfalso. apply Hnin. now apply (in_map fst d (c, v)).
Qed.

Section CategoryTotals.

Local Abbreviation step :=
  (fun (totals : dict Q) (t : transaction) =>
     if is_expense t
     then dict_set totals (category t) (dict_get totals (category t) 0 + amount t)%Q
     else totals).

Lemma totals_get (ts : list transaction) (d : dict Q) (c : string) :
  (dict_get (fold_left step ts d) c 0 == dict_get d c 0 + Spec.category_sum c ts)%Q.
Proof.
  revert d. induction ts as [|t ts IH]; intros d; simpl.
  - ring.
  - rewrite IH. destruct (is_expense t); simpl; [|ring].
    rewrite dict_get_set. destruct (String.eqb (category t) c) eqn:E.
    + apply String.eqb_eq in E. subst c. ring.
    + ring.
Qed.

Lemma totals_keys (ts : list transaction) (d : dict Q) (c : string) :
  In c (map fst (fold_left step ts d))
  <-> In c (map fst d)
      \/ exists t, In t ts /\ is_expense t = true /\ category t = c.
Proof.
  revert d. induction ts as [|t ts IH]; intros d; simpl.
  - split; [auto | intros [H | (t & [] & _)]; exact H].
  - rewrite IH. destruct (is_expense t) eqn:E.
    + rewrite dict_set_keys. split.
      * intros [[-> | H] | (u & Hu & He & Hc)]; eauto 7.
      * intros [H | (u & [<- | Hu] & He & Hc)]; eauto 7.
    + split.
      * intros [H | (u & Hu & He & Hc)]; eauto 7.
      * intros [H | (u & [<- | Hu] & He & Hc)]; eauto 7. congruence.
Qed.

Lemma totals_NoDup (ts : list transaction) (d : dict Q) :
  NoDup (map fst d) -> NoDup (map fst (fold_left step ts d)).
Proof.
  revert d. induction ts as [|t ts IH]; intros d H; simpl; [exact H|].
  apply IH. destruct (is_expense t); [now apply dict_set_NoDup | exact H].
Qed.

Lemma totals_sum (ts : list transaction) (d : dict Q) :
  (Num.sum (map snd (fold_left step ts d))
   == Num.sum (map snd d) + Spec.sum_where "expense" ts)%Q.
Proof.
  revert d. induction ts as [|t ts IH]; intros d; simpl.
  - ring.
  - rewrite IH. unfold is_expense. destruct (String.eqb (type t) "expense").
    + rewrite dict_set_sum. ring.
    + ring.
Qed.

End CategoryTotals.

(** [category_totals] groups the expenses by category: one entry per category
    that has an expense, holding the sum of that category's amounts; the
    entries add up to the total of all expenses. *)
Lemma category_totals_groups (ts : list transaction) :
  NoDup (map fst (category_totals ts))
  /\ (forall c, In c (map fst (category_totals ts))
                <-> exists t, In t ts /\ is_expense t = true /\ category t = c)
  /\ (forall c a, In (c, a) (category_totals ts) -> (a == Spec.category_sum c ts)%Q)
  /\ (Num.sum (map snd (category_totals ts)) == Spec.sum_where "expense" ts)%Q.
Proof.
  unfold category_totals.
  assert (Hn : NoDup (map fst (category_totals ts)))
    by (apply totals_NoDup; constructor).
  unfold category_totals in Hn.
  split; [exact Hn|]. split; [|split].
  - intros c. rewrite totals_keys. simpl. tauto.
  - intros c a Hin. rewrite <- (dict_get_In _ c a 0 Hn Hin).
    rewrite totals_get. simpl. ring.
  - rewrite totals_sum. unfold Num.sum. simpl. ring.
Qed.

Lemma insert_by_amount_perm (x : string * Q) (l : list (string * Q)) :
  Permutation (insert_by_amount x l) (x :: l).
Proof.
  induction l as [|y r IH]; simpl.
  - apply Permutation_refl.
  - destruct (Num.Qltb (snd x) (snd y)).
    + eapply perm_trans; [apply perm_skip, IH | apply perm_swap].
    + apply Permutation_refl.
Qed.

Lemma sorted_by_amount_desc_perm (l : list (string * Q)) :
  Permutation (sorted_by_amount_desc l) l.
Proof.
  induction l as [|x l IH]; simpl.
  - apply perm_nil.
  - eapply perm_trans; [apply insert_by_amount_perm | apply perm_skip, IH].
Qed.

Lemma insert_by_amount_sorted (x : string * Q) (l : list (string * Q)) :
  StronglySorted Spec.amount_ge l -> StronglySorted Spec.amount_ge (insert_by_amount x l).
Proof.
  induction 1 as [|y r Hr IH Hy]; simpl.
  - repeat constructor.
  - destruct (Num.Qltb (snd x) (snd y)) eqn:E.
    + constructor; [exact IH|].
      apply (Permutation_Forall (Permutation_sym (insert_by_amount_perm x r))).
      constructor; [|exact Hy].
      apply Qltb_lt in E. now apply Qlt_le_weak.
    + apply Qltb_ge in E.
      constructor; [constructor; assumption|].
      constructor; [exact E|].
      eapply Forall_impl; [|exact Hy].
      intros z Hz. unfold Spec.amount_ge in *. eapply Qle_trans; eassumption.
Qed.

Lemma sorted_by_amount_desc_sorted (l : list (string * Q)) :
  StronglySorted Spec.amount_ge (sorted_by_amount_desc l).
Proof.
  induction l as [|x l IH]; simpl.
  - constructor.
  - apply insert_by_amount_sorted, IH.
Qed.

Lemma fold_left_lines {A : Type} (f : A -> string) (l : list A) (acc : string) :
  fold_left (fun response x => response ++ f x) l acc = acc ++ Spec.lines (map f l).
Proof.
  revert acc. induction l as [|x l IH]; intros acc; simpl.
  - clear. induction acc as [|c acc IH]; simpl; [reflexivity | now rewrite <- IH].
  - now rewrite IH, append_assoc.
Qed.

(** Replace the closed applications of [f] by their values. *)
Ltac evaluate f :=
  repeat match goal with
         | |- context [f ?x] =>
             let v := eval vm_compute in (f x) in
             progress change (f x) with v
         end.

Lemma get_expense_breakdown_lines (ts : list transaction) (sym : string) :
  let total := Num.sum (map snd (category_totals ts)) in
  (0 < total)%Q ->
  get_expense_breakdown ts sym
  = Ok ("💰 **Your Expense Breakdown by Category**:" ++ nl ++ nl
        ++ Spec.lines (map (Spec.breakdown_line sym total)
                           (sorted_by_amount_desc (category_totals ts)))
        ++ nl ++ "**Total**: " ++ sym ++ Num.format_f 2 total).
Proof.
  intros total Hpos. unfold get_expense_breakdown. fold total.
  destruct (category_totals ts) as [|x d] eqn:E.
  - discriminate Hpos.
  - assert (Ht : Num.Qltb 0 total = true) by now apply Qltb_lt.
    assert (Hnz : ~ (total == 0)%Q).
    { intros H. rewrite H in Ht. discriminate Ht. }
    rewrite (for_each_ok _
               (fun response item => response ++ Spec.breakdown_line sym total item)).
    + cbn [bind]. rewrite fold_left_lines. now rewrite !append_assoc.
    + intros b [c a] _. unfold percent_of. rewrite Ht, div_ok by exact Hnz.
      reflexivity.
Qed.



(** ** Spending trends *)

Lemma sum_expenses (l : list transaction) :
  (Num.sum (map amount (filter is_expense l)) == Spec.sum_where "expense" l)%Q.
Proof. exact (sum_where_filter "expense" l). Qed.

Lemma filter_andb {A : Type} (f g : A -> bool) (l : list A) :
  filter (fun x => f x && g x) l = filter g (filter f l).
Proof.
  induction l as [|x l IH]; simpl; [reflexivity|].
  destruct (f x); simpl; [destruct (g x); now rewrite IH | exact IH].
Qed.

Lemma filter_nil {A : Type} (f : A -> bool) (l : list A) :
  filter f l = [] <-> forall x, In x l -> f x = false.
Proof.
  split.
  - intros H x Hx. destruct (f x) eqn:E; [|reflexivity].
    assert (Hin : In x (filter f l)) by (apply filter_In; auto).
    rewrite H in Hin. destruct Hin.
  - apply filter_none.
Qed.

Lemma change_sign (R P : Q) :
  (0 < P)%Q ->
  ((P < R -> 0 < (R - P) / P * 100)
   /\ (R < P -> (R - P) / P * 100 < 0
                /\ Qabs ((R - P) / P * 100) == (P - R) / P * 100)
   /\ (R == P -> (R - P) / P * 100 == 0))%Q.
Proof.
  intros HP.
  assert (Hk : (0 < / P * 100)%Q).
  { apply Qmult_lt_0_compat; [now apply Qinv_lt_0_compat | reflexivity]. }
  assert (E : forall x : Q, (x / P * 100 == x * (/ P * 100))%Q).
  { intros x. unfold Qdiv. ring. }
  split; [|split].
  - intros H. rewrite E. apply Qmult_lt_0_compat; [|exact Hk].
    lra.
  - intros H.
    assert (Hpos : (0 < (P - R) / P * 100)%Q).
    { rewrite E. apply Qmult_lt_0_compat; [lra | exact Hk]. }
    assert (Hopp : ((R - P) / P * 100 == - ((P - R) / P * 100))%Q).
    { rewrite !E. ring. }
    split.
    + rewrite Hopp. lra.
    + rewrite Hopp, Qabs_opp. apply Qabs_pos. lra.
  - intros H. rewrite E, H. ring.
Qed.

(** The trend report for two arbitrary threshold strings. *)
Lemma trends_core (thirty sixty : string) (t0 : transaction) (ts0 : list transaction)
    (sym : string) :
  let ts := t0 :: ts0 in
  let recent := filter (fun t => Text.le thirty (date t)) ts in
  let window := filter (fun t => Text.le sixty (date t) && Text.lt (date t) thirty) ts in
  let R := Spec.sum_where "expense" recent in
  let P := Spec.sum_where "expense" window in
  let c := (if Num.Qltb 0 P then (R - P) / P * 100 else 0)%Q in
  match recent with
  | [] => Ok "📅 No transactions in the last 30 days."
  | _ :: _ =>
      let total_recent := Num.sum (map amount (filter is_expense recent)) in
      avg_daily <- Num.div total_recent 30 ;;
      let previous_period :=
        filter (fun t => Text.le sixty (date t) && Text.lt (date t) thirty && is_expense t)
               ts in
      let response := "📈 **Spending Trends (Last 30 Days)**:" ++ nl ++ nl in
      let response :=
        response ++ "• **Total spending**: " ++ sym ++ Num.format_f 2 total_recent ++ nl in
      let response :=
        response ++ "• **Average daily spending**: " ++ sym
        ++ Num.format_f 2 avg_daily ++ nl in
      match previous_period with
      | [] => Ok response
      | _ :: _ =>
          let prev_total := Num.sum (map amount previous_period) in
          change <-
            (if Num.Qltb 0 prev_total
             then q <- Num.div (total_recent - prev_total) prev_total ;; Ok (q * 100)%Q
             else Ok 0%Q) ;;
          let trend_emoji :=
            if Num.Qltb 0 change then "📈"
            else if Num.Qltb change 0 then "📉" else "➡️" in
          Ok (response ++ "• **Trend**: " ++ trend_emoji ++ " "
              ++ Num.format_f 1 (Qabs change) ++ "% "
              ++ (if Num.Qltb 0 change then "increase"
                  else if Num.Qltb change 0 then "decrease" else "no change")
              ++ " from previous month" ++ nl)
      end
  end
  = match recent with
    | [] => Ok "📅 No transactions in the last 30 days."
    | _ :: _ =>
        match filter is_expense window with
        | [] => Ok (Spec.trend_head sym R)
        | _ :: _ =>
            Ok (Spec.trend_head sym R
                ++ Spec.trend_line
                     (if Num.Qltb 0 c then "📈"
                      else if Num.Qltb c 0 then "📉" else "➡️")
                     (Qabs c)
                     (if Num.Qltb 0 c then "increase"
                      else if Num.Qltb c 0 then "decrease" else "no change"))
        end
    end.
Proof.
  cbv zeta. set (ts := t0 :: ts0).
  rewrite (filter_andb
             (fun t => Text.le sixty (date t) && Text.lt (date t) thirty) is_expense ts).
  set (recent := filter (fun t => Text.le thirty (date t)) ts).
  set (window := filter (fun t => Text.le sixty (date t) && Text.lt (date t) thirty) ts).
  pose proof (sum_expenses recent) as HR.
  pose proof (sum_expenses window) as HP.
  set (R := Spec.sum_where "expense" recent) in *.
  set (P := Spec.sum_where "expense" window) in *.
  set (R' := Num.sum (map amount (filter is_expense recent))) in *.
  set (P' := Num.sum (map amount (filter is_expense window))) in *.
  clearbody R P R' P'.
  destruct recent as [|r0 rs]; [reflexivity|].
  rewrite div_ok by discriminate. cbn [bind].
  destruct (filter is_expense window) as [|p0 ps].
  - unfold Spec.trend_head. rewrite !append_assoc. now rewrite HR.
  - rewrite (Qltb_comp 0 0 (Qeq_refl 0) P' P HP).
    destruct (Num.Qltb 0 P) eqn:EP.
    + assert (HP' : ~ (P' == 0)%Q).
      { rewrite HP. apply Qltb_lt in EP. intros H. rewrite H in EP. discriminate EP. }
      rewrite div_ok by exact HP'. cbn [bind].
      assert (Hc : ((R' - P') / P' * 100 == (R - P) / P * 100)%Q) by now rewrite HR, HP.
      rewrite (Qltb_comp 0 0 (Qeq_refl 0) _ _ Hc).
      rewrite (Qltb_comp _ _ Hc 0 0 (Qeq_refl 0)).
      unfold Spec.trend_head, Spec.trend_line. rewrite !append_assoc.
      now rewrite Hc, HR.
    + cbn [bind]. unfold Spec.trend_head, Spec.trend_line. rewrite !append_assoc.
      now rewrite HR.
Qed.

Opaque Clock.strftime_Y_m_d Clock.minus_days.

Lemma get_spending_trends_windows (w : world) (ts : list transaction) (sym : string) :
  let recent := Spec.trailing_window w ts in
  let window := Spec.preceding_window w ts in
  let R := Spec.sum_where "expense" recent in
  let P := Spec.sum_where "expense" window in
  let c := (if Num.Qltb 0 P then (R - P) / P * 100 else 0)%Q in
  get_spending_trends w ts sym
  = match ts with
    | [] => Ok "📊 No transactions to analyze yet. Start tracking to see your spending trends!"
    | _ :: _ =>
        match recent with
        | [] => Ok "📅 No transactions in the last 30 days."
        | _ :: _ =>
            match filter is_expense window with
            | [] => Ok (Spec.trend_head sym R)
            | _ :: _ =>
                Ok (Spec.trend_head sym R
                    ++ Spec.trend_line
                         (if Num.Qltb 0 c then "📈"
                          else if Num.Qltb c 0 then "📉" else "➡️")
                         (Qabs c)
                         (if Num.Qltb 0 c then "increase"
                          else if Num.Qltb c 0 then "decrease" else "no change"))
            end
        end
    end.
Proof.
  destruct ts as [|t0 ts0]; [reflexivity|].
  exact (trends_core (Spec.thirty_days_ago w) (Spec.sixty_days_ago w) t0 ts0 sym).
Qed.

Transparent Clock.strftime_Y_m_d Clock.minus_days.

Lemma trend_line_comp (emoji direction : string) (x y : Q) :
  (x == y)%Q -> Spec.trend_line emoji x direction = Spec.trend_line emoji y direction.
Proof. intros H. unfold Spec.trend_line. now rewrite H. Qed.




(** Window membership follows the order of the strings, not the calendar: on
    2024-03-15 a record dated with an unpadded month, 20 January 2024, counts
    as one of the last 30 days, because ["2024-1-20"] is above ["2024-02-14"]
    as a string. *)
Lemma window_by_string_order :
  Spec.thirty_days_ago Examples.funded = "2024-02-14"
  /\ Spec.sixty_days_ago Examples.funded = "2024-01-15"
  /\ Spec.trailing_window Examples.funded
       [mkTransaction 1 "expense" "Food" 60 "2024-1-20" ""]
     = [mkTransaction 1 "expense" "Food" 60 "2024-1-20" ""]
  /\ Spec.preceding_window Examples.funded
       [mkTransaction 1 "expense" "Food" 60 "2024-1-20" ""]
     = [].
Proof.
  split; [|split; [|split]]; lazy; reflexivity.
Qed.

(** ** A further fact about the summary *)

(** The summary does not depend on the order of the rows. *)
Lemma sum_where_perm (ty : string) (l l' : list transaction) :
  Permutation l l' -> (Spec.sum_where ty l == Spec.sum_where ty l')%Q.
Proof.
  induction 1 as [|t l l' _ IH|t u l|l l' l'' _ IH1 _ IH2]; simpl.
  - reflexivity.
  - destruct (String.eqb (type t) ty); rewrite IH; reflexivity.
  - destruct (String.eqb (type t) ty), (String.eqb (type u) ty); ring.
  - rewrite IH1. exact IH2.
Qed.

(** * Further properties of the code *)

From Stdlib Require Import DecimalPos DecimalN.
From Stdlib Require DecimalFacts.

(** ** Nothing is raised *)


(** ** Savings tips *)

Lemma fold_best_max (r : list (string * Q)) (x : string * Q) :
  let best := fold_left (fun best y => if Num.Qltb (snd best) (snd y) then y else best)
                        r x in
  (snd x <= snd best)%Q /\ Forall (fun y => (snd y <= snd best)%Q) r.
Proof.
  cbv zeta. revert x. induction r as [|y r IH]; intros x; simpl.
  - split; [apply Qle_refl | constructor].
  - destruct (Num.Qltb (snd x) (snd y)) eqn:E.
    + destruct (IH y) as [Hy Hr]. split; [|constructor; assumption].
      apply Qltb_lt in E. eapply Qle_trans; [apply Qlt_le_weak, E | exact Hy].
    + destruct (IH x) as [Hx Hr]. split; [exact Hx|].
      constructor; [|exact Hr].
      apply Qltb_ge in E. eapply Qle_trans; [exact E | exact Hx].
Qed.

Lemma dict_item_In {V : Type} (d : dict V) (k : string) (v : V) :
  NoDup (map fst d) -> In (k, v) d -> dict_item d k = Ok v.
Proof.
  induction d as [|[k' v'] d IH]; simpl; intros Hn Hin; [contradiction|].
  inversion Hn as [|? ? Hnin Hd]; subst.
  destruct Hin as [Heq | Hin].
  - inversion Heq; subst. now rewrite String.eqb_refl.
  - destruct (String.eqb k' k) eqn:E; [|auto].
    apply String.eqb_eq in E. subst k'.
    exfalso. apply Hnin. now apply (in_map fst d (k, v)).
Qed.



(** ** The overview *)

Lemma rate_below (b i c : Q) :
  (0 < i)%Q -> (b / i * 100 < c <-> b * 100 < c * i)%Q.
Proof.
  intros Hi.
  assert (Hne : ~ (i == 0)%Q) by (intros H; rewrite H in Hi; discriminate Hi).
  assert (E : (b / i * 100 * i == b * 100)%Q) by (field; exact Hne).
  rewrite <- E. symmetry. apply Qmult_lt_r. exact Hi.
Qed.



(** ** The breakdown when the total is not positive *)



(** ** Histories of the store *)

Lemma well_formed_run (history : list Ops.op) (s : store) :
  Spec.well_formed s -> Spec.well_formed (Ops.run s history).
Proof.
  revert s. induction history as [|o history IH]; intros s H; simpl; [exact H|].
  apply IH. destruct o as [e | i]; simpl.
  - destruct e as [ty c a d ds]. apply well_formed_add, H.
  - apply well_formed_delete, H.
Qed.

Lemma seq_run (history : list Ops.op) (s : store) :
  (seq s <= seq (Ops.run s history))%Z.
Proof.
  revert s. induction history as [|o history IH]; intros s; simpl; [lia|].
  specialize (IH (Ops.apply s o)). destruct o as [e | i]; simpl in *; lia.
Qed.

(** X5: along any history of insertions and deletions on a fresh database
    the ids of the table stay pairwise distinct, and an id is never given
    twice: the row a later insertion adds has an id above every id the table
    held at any earlier time, deleted or not. *)
Theorem ids_never_reused (history later : list Ops.op) (e : Spec.entry) :
  let s := Ops.run (init_db None) history in
  let s' := Ops.run s later in
  NoDup (map id (get_transactions s'))
  /\ (forall t u, In t (rows s) -> In u (rows (Spec.add_entry s' e)) ->
                  ~ In u (rows s') -> (id t < id u)%Z).
Proof.
  cbv zeta.
  set (s := Ops.run (init_db None) history).
  set (s' := Ops.run s later).
  assert (Hs : Spec.well_formed s) by apply well_formed_run, well_formed_init.
  assert (Hs' : Spec.well_formed s') by apply well_formed_run, Hs.
  split.
  - destruct Hs' as (Hsorted & _ & _). apply sorted_NoDup in Hsorted.
    eapply Permutation_NoDup; [|exact Hsorted].
    apply Permutation_map, Permutation_sym, order_by_date_desc_perm.
  - intros t u Ht Hu Hnew. simpl in Hu. apply in_app_or in Hu as [Hu | Hu].
    + contradiction.
    + destruct Hu as [<- | []]. simpl.
      destruct Hs as (_ & Hb & _). rewrite Forall_forall in Hb.
      specialize (Hb t Ht). pose proof (seq_run later s). fold s' in H. lia.
Qed.

(** X6: on a store whose ids are in order, inserting a record and deleting
    it by the id it was given restores the rows, while the counter stays
    advanced by one. *)
Theorem add_then_delete (s : store) (e : Spec.entry) :
  Spec.well_formed s ->
  let s' := delete_transaction (Spec.add_entry s e) (seq s + 1) in
  rows s' = rows s /\ seq s' = (seq s + 1)%Z
  /\ get_transactions s' = get_transactions s.
Proof.
  intros (_ & Hb & _). cbv zeta.
  assert (Hr : rows (delete_transaction (Spec.add_entry s e) (seq s + 1)) = rows s).
  { simpl. rewrite filter_app. simpl. rewrite Z.eqb_refl. simpl.
    rewrite app_nil_r. apply filter_all. intros t Ht.
    rewrite Forall_forall in Hb. specialize (Hb t Ht).
    apply negb_true_iff, Z.eqb_neq. lia. }
  split; [exact Hr|]. split; [reflexivity|].
  unfold get_transactions. now rewrite Hr.
Qed.

Lemma add_then_delete_witness :
  rows (delete_transaction
          (Spec.add_entry Examples.ledger
             (Spec.mkEntry "expense" "Food" 15 "2024-03-01" "lunch")) 3)
  = rows Examples.ledger.
Proof.
  apply (add_then_delete Examples.ledger
           (Spec.mkEntry "expense" "Food" 15 "2024-03-01" "lunch")).
  apply (well_formed_add_all (init_db None) Examples.salary_and_food).
  apply well_formed_init.
Defined.

(** ** The summary along insertions and deletions *)

Lemma sum_where_app (ty : string) (l1 l2 : list transaction) :
  (Spec.sum_where ty (l1 ++ l2) == Spec.sum_where ty l1 + Spec.sum_where ty l2)%Q.
Proof.
  induction l1 as [|t l1 IH]; simpl.
  - ring.
  - destruct (String.eqb (type t) ty); rewrite IH; ring.
Qed.

(** X7: in exact arithmetic, inserting an income of amount [a] raises the
    total income and the balance by [a] and leaves the total expenses;
    inserting an expense raises the total expenses by [a] and lowers the
    balance by [a]. *)
Theorem summary_after_add (s : store) (c : string) (a : Q) (d ds : string) :
  let before := get_summary s in
  Spec.summary_eq (get_summary (add_transaction s "income" c a d ds))
    (mkSummary (total_income before + a) (total_expenses before) (balance before + a))
  /\ Spec.summary_eq (get_summary (add_transaction s "expense" c a d ds))
       (mkSummary (total_income before) (total_expenses before + a)
                  (balance before - a)).
Proof.
  cbv zeta. unfold Spec.summary_eq, get_summary.
  cbn [total_income total_expenses balance].
  rewrite !or_zero_select. cbn [rows add_transaction].
  rewrite !sum_where_app. cbn [Spec.sum_where type amount String.eqb Ascii.eqb Bool.eqb].
  repeat split; ring.
Qed.

Lemma sum_where_remove (ty : string) (l : list transaction) (t : transaction) :
  NoDup (map id l) -> In t l ->
  (Spec.sum_where ty l
   == Spec.sum_where ty (filter (fun u => negb (id u =? id t)%Z) l)
      + (if String.eqb (type t) ty then amount t else 0))%Q.
Proof.
  induction l as [|u l IH]; simpl; intros Hn Hin; [contradiction|].
  inversion Hn as [|? ? Hnin Hl]; subst.
  destruct Hin as [-> | Hin].
  - rewrite Z.eqb_refl. simpl.
    rewrite (filter_all (fun u => negb (id u =? id t)%Z) l).
    + destruct (String.eqb (type t) ty); ring.
    + intros v Hv. apply negb_true_iff, Z.eqb_neq. intros Heq.
      apply Hnin. rewrite <- Heq. now apply in_map.
  - assert (Hne : (id u =? id t)%Z = false).
    { apply Z.eqb_neq. intros Heq. apply Hnin. rewrite Heq. now apply in_map. }
    rewrite Hne. simpl. pose proof (IH Hl Hin) as IH'.
    destruct (String.eqb (type u) ty); rewrite IH'; ring.
Qed.

(** X8: in exact arithmetic, on a store whose ids are in order, deleting a
    stored record by its id lowers the total of its type by its amount and
    leaves the other total; a record of another type leaves both. *)
Theorem summary_after_delete (s : store) (t : transaction) :
  Spec.well_formed s -> In t (rows s) ->
  let before := get_summary s in
  let income := if String.eqb (type t) "income" then amount t else 0%Q in
  let expense := if String.eqb (type t) "expense" then amount t else 0%Q in
  Spec.summary_eq (get_summary (delete_transaction s (id t)))
    (mkSummary (total_income before - income) (total_expenses before - expense)
               (balance before - income + expense)).
Proof.
  intros (Hsorted & _ & _) Hin. cbv zeta.
  apply sorted_NoDup in Hsorted.
  unfold Spec.summary_eq, get_summary. cbn [total_income total_expenses balance].
  rewrite !or_zero_select. cbn [rows delete_transaction].
  rewrite (sum_where_remove "income" (rows s) t Hsorted Hin).
  rewrite (sum_where_remove "expense" (rows s) t Hsorted Hin).
  split; [|split]; ring.
Qed.

Lemma summary_after_delete_witness :
  Spec.summary_eq (get_summary (delete_transaction Examples.ledger 2))
                  (mkSummary 1000 0 1000).
Proof.
  pose proof (summary_after_delete Examples.ledger
                (mkTransaction 2 "expense" "Food" 200 "2024-01-05" "")) as H.
  assert (Hwf : Spec.well_formed Examples.ledger).
  { apply (well_formed_add_all (init_db None) Examples.salary_and_food).
    apply well_formed_init. }
  assert (Hin : In (mkTransaction 2 "expense" "Food" 200 "2024-01-05" "")
                   (rows Examples.ledger)) by (right; left; reflexivity).
  specialize (H Hwf Hin). lazy in H. lazy. exact H.
Defined.

(** ** app.py: the delete button *)

Lemma lstrip_no_space (s : string) : App.no_space s -> App.lstrip s = s.
Proof.
  destruct s as [|c r]; [reflexivity|]. intros H. simpl.
  now rewrite (H c (or_introl eq_refl)).
Qed.

Lemma rstrip_no_space (s : string) : App.no_space s -> App.rstrip s = s.
Proof.
  induction s as [|c r IH]; intros H; [reflexivity|]. simpl.
  rewrite IH by (intros x Hx; apply H; now right).
  destruct r; [|reflexivity].
  now rewrite (H c (or_introl eq_refl)).
Qed.

Lemma split_head_no_space (s rest : string) :
  App.no_space s -> App.split_head " - " (s ++ " - " ++ rest) = s.
Proof.
  induction s as [|c r IH]; intros H.
  - assert (Hp : prefix " - " (" - " ++ rest) = true)
      by (apply prefix_app; eexists; reflexivity).
    change ("" ++ " - " ++ rest) with (String " " ("- " ++ rest)).
    change (" - " ++ rest) with (String " " ("- " ++ rest)) in Hp.
    cbn [App.split_head]. now rewrite Hp.
  - assert (Hc : App.is_space c = false) by (apply H; now left).
    change (String c r ++ " - " ++ rest) with (String c (r ++ " - " ++ rest)).
    cbn [App.split_head].
    assert (Hp : prefix " - " (String c (r ++ " - " ++ rest)) = false).
    { cbn [prefix]. destruct (ascii_dec " " c) as [<- | _]; [discriminate Hc | reflexivity]. }
    rewrite Hp. f_equal. apply IH. intros x Hx. apply H. now right.
Qed.

Lemma digits_of_uint_acc (d : Decimal.uint) (p : positive) :
  App.digits (NilEmpty.string_of_uint d) (Z.pos p) true
  = Some (Z.pos (Pos.of_uint_acc d p)).
Proof.
  revert p. induction d; intros p; cbn [NilEmpty.string_of_uint App.digits Pos.of_uint_acc];
    [reflexivity | ..];
    (match goal with
     | |- context [App.digit_value ?c] =>
         let v := eval vm_compute in (App.digit_value c) in
         change (App.digit_value c) with v
     end; cbv iota; rewrite <- IHd; f_equal; lia).
Qed.

Lemma digits_of_uint (d : Decimal.uint) (after_digit : bool) :
  d <> Decimal.Nil \/ after_digit = true ->
  App.digits (NilEmpty.string_of_uint d) 0 after_digit = Some (Z.of_N (Pos.of_uint d)).
Proof.
  revert after_digit. induction d; intros b Hb;
    cbn [NilEmpty.string_of_uint App.digits Pos.of_uint].
  - destruct Hb as [Hb | ->]; [congruence | reflexivity].
  - change (App.digit_value "0") with (Some 0%Z). cbv iota.
    change (10 * 0 + 0)%Z with 0%Z. apply IHd. now right.
  - change (App.digit_value "1") with (Some 1%Z). cbv iota.
    change (10 * 0 + 1)%Z with 1%Z. apply digits_of_uint_acc.
  - change (App.digit_value "2") with (Some 2%Z). cbv iota.
    change (10 * 0 + 2)%Z with 2%Z. apply digits_of_uint_acc.
  - change (App.digit_value "3") with (Some 3%Z). cbv iota.
    change (10 * 0 + 3)%Z with 3%Z. apply digits_of_uint_acc.
  - change (App.digit_value "4") with (Some 4%Z). cbv iota.
    change (10 * 0 + 4)%Z with 4%Z. apply digits_of_uint_acc.
  - change (App.digit_value "5") with (Some 5%Z). cbv iota.
    change (10 * 0 + 5)%Z with 5%Z. apply digits_of_uint_acc.
  - change (App.digit_value "6") with (Some 6%Z). cbv iota.
    change (10 * 0 + 6)%Z with 6%Z. apply digits_of_uint_acc.
  - change (App.digit_value "7") with (Some 7%Z). cbv iota.
    change (10 * 0 + 7)%Z with 7%Z. apply digits_of_uint_acc.
  - change (App.digit_value "8") with (Some 8%Z). cbv iota.
    change (10 * 0 + 8)%Z with 8%Z. apply digits_of_uint_acc.
  - change (App.digit_value "9") with (Some 9%Z). cbv iota.
    change (10 * 0 + 9)%Z with 9%Z. apply digits_of_uint_acc.
Qed.

Lemma to_uint_nonnil (n : N) : N.to_uint n <> Decimal.Nil.
Proof.
  destruct n; simpl; [discriminate | apply DecimalPos.Unsigned.to_uint_nonnil].
Qed.

Lemma of_Z_string (n : Z) :
  Text.of_Z n = NilEmpty.string_of_uint (N.to_uint (Z.to_N n)).
Proof.
  unfold Text.of_Z, NilZero.string_of_uint.
  pose proof (to_uint_nonnil (Z.to_N n)) as H.
  destruct (N.to_uint (Z.to_N n)); [congruence | reflexivity..].
Qed.

Lemma string_of_uint_digits (d : Decimal.uint) :
  Forall (fun c => App.is_digit c = true) (list_ascii_of_string (NilEmpty.string_of_uint d)).
Proof.
  induction d; simpl; constructor; auto.
Qed.

Lemma digit_not_space (c : ascii) : App.is_digit c = true -> App.is_space c = false.
Proof.
  unfold App.is_digit, App.digit_value, App.is_space.
  destruct ((48 <=? N_of_ascii c) && (N_of_ascii c <=? 57))%N eqn:E; [|discriminate].
  intros _. apply andb_true_iff in E as [E1 E2].
  apply N.leb_le in E1, E2.
  apply orb_false_iff. split; apply andb_false_iff.
  - right. apply N.leb_gt. lia.
  - right. apply N.leb_gt. lia.
Qed.

Lemma of_Z_no_space (n : Z) : App.no_space (Text.of_Z n).
Proof.
  intros c Hc. rewrite of_Z_string in Hc. apply digit_not_space.
  pose proof (string_of_uint_digits (N.to_uint (Z.to_N n))) as H.
  rewrite Forall_forall in H. apply H, Hc.
Qed.

Lemma str_int_no_space (n : Z) : App.no_space (App.str_int n).
Proof.
  unfold App.str_int. destruct (n <? 0)%Z.
  - intros c [<- | Hc]; [reflexivity | exact (of_Z_no_space _ c Hc)].
  - apply of_Z_no_space.
Qed.

Lemma digits_of_Z (n : Z) (after_digit : bool) :
  (0 <= n)%Z -> App.digits (Text.of_Z n) 0 after_digit = Some n.
Proof.
  intros Hn. rewrite of_Z_string, digits_of_uint.
  - change (Pos.of_uint (N.to_uint (Z.to_N n))) with (N.of_uint (N.to_uint (Z.to_N n))).
    rewrite DecimalN.Unsigned.of_to. f_equal. lia.
  - left. apply to_uint_nonnil.
Qed.

(** [int(str(n)) == n] *)
Lemma int_str_int (n : Z) : App.int (App.str_int n) = Ok n.
Proof.
  unfold App.int.
  rewrite lstrip_no_space, rstrip_no_space by apply str_int_no_space.
  unfold App.str_int. destruct (n <? 0)%Z eqn:E.
  - apply Z.ltb_lt in E. cbn [append]. change (Ascii.eqb "-" "-") with true. cbv iota.
    rewrite digits_of_Z by lia. simpl. f_equal. lia.
  - apply Z.ltb_ge in E.
    pose proof (digits_of_Z n false E) as Hd.
    pose proof (string_of_uint_digits (N.to_uint (Z.to_N n))) as Hdig.
    rewrite <- of_Z_string in Hdig.
    destruct (Text.of_Z n) as [|c r] eqn:Es.
    + simpl in Hd. discriminate Hd.
    + inversion Hdig as [|? ? Hc _]; subst.
      assert (Hm : Ascii.eqb c "-" = false /\ Ascii.eqb c "+" = false).
      { unfold App.is_digit, App.digit_value in Hc.
        split; apply Ascii.eqb_neq; intros ->; discriminate Hc. }
      destruct Hm as [-> ->]. now rewrite Hd.
Qed.

Lemma selected_id (curr_symbol : string) (t : transaction) :
  App.int (App.split_head " - " (App.transaction_option curr_symbol t)) = Ok (id t).
Proof.
  unfold App.transaction_option.
  rewrite split_head_no_space by apply str_int_no_space.
  apply int_str_int.
Qed.



(** ** app.py: what the forms can store *)

Lemma from_form_settings (s : store) (p : App.press) :
  Forall App.from_form (rows s) -> Forall App.from_form (rows (App.settings s p)).
Proof.
  intros H. destruct p as [a c d ds | a c d ds | sym n]; simpl.
  - unfold App.submit_income. destruct (Num.Qltb 0 a) eqn:E; [|exact H].
    simpl. apply Forall_app. split; [exact H|].
    constructor; [|constructor].
    apply Qltb_lt in E. repeat split; simpl; eauto.
  - unfold App.submit_expense. destruct (Num.Qltb 0 a) eqn:E; [|exact H].
    simpl. apply Forall_app. split; [exact H|].
    constructor; [|constructor].
    apply Qltb_lt in E. repeat split; simpl; eauto.
  - unfold App.delete_selected.
    destruct (nth_error _ n); [|exact H].
    destruct (App.int _); [|exact H].
    simpl. rewrite Forall_forall in *. intros t Ht. apply H.
    apply filter_In in Ht. tauto.
Qed.

Lemma well_formed_settings (s : store) (p : App.press) :
  Spec.well_formed s -> Spec.well_formed (App.settings s p).
Proof.
  intros H. destruct p as [a c d ds | a c d ds | sym n]; simpl.
  - unfold App.submit_income. destruct (Num.Qltb 0 a); [|exact H].
    apply well_formed_add, H.
  - unfold App.submit_expense. destruct (Num.Qltb 0 a); [|exact H].
    apply well_formed_add, H.
  - unfold App.delete_selected.
    destruct (nth_error _ n); [|exact H].
    destruct (App.int _); [|exact H].
    apply well_formed_delete, H.
Qed.

Lemma session_invariant (presses : list App.press) (s : store) :
  Forall App.from_form (rows s) -> Spec.well_formed s ->
  Forall App.from_form (rows (fold_left App.settings presses s))
  /\ Spec.well_formed (fold_left App.settings presses s).
Proof.
  revert s. induction presses as [|p presses IH]; intros s Hf Hw; simpl; [auto|].
  apply IH; [apply from_form_settings, Hf | apply well_formed_settings, Hw].
Qed.

Lemma sum_where_nonneg (ty : string) (l : list transaction) :
  Forall (fun t => (0 < amount t)%Q) l -> (0 <= Spec.sum_where ty l)%Q.
Proof.
  induction 1 as [|t l Ht Hl IH]; simpl; [apply Qle_refl|].
  destruct (String.eqb (type t) ty); [|exact IH]. lra.
Qed.

Lemma sum_where_pos (ty : string) (l : list transaction) (t : transaction) :
  Forall (fun t => (0 < amount t)%Q) l -> In t l -> type t = ty ->
  (0 < Spec.sum_where ty l)%Q.
Proof.
  induction 1 as [|u l Hu Hl IH]; simpl; intros Hin Hty; [contradiction|].
  pose proof (sum_where_nonneg ty l Hl) as Hnn.
  destruct Hin as [-> | Hin].
  - rewrite Hty, String.eqb_refl. lra.
  - specialize (IH Hin Hty). destruct (String.eqb (type u) ty); lra.
Qed.


(** X11: for every store the settings page can produce, the totals of the
    summary are not negative; when the listing holds an expense the total of
    the expenses is positive, so that the shares of the breakdown are
    computed by division; and when the income exceeds the expenses the
    savings rate of the overview lies above 0 and at most at 100. *)
Theorem settings_store_totals (presses : list App.press) :
  let s := App.session presses in
  let I := total_income (get_summary s) in
  let E := total_expenses (get_summary s) in
  (0 <= I)%Q /\ (0 <= E)%Q
  /\ ((exists t, In t (get_transactions s) /\ is_expense t = true) ->
      (0 < Spec.sum_where "expense" (get_transactions s))%Q)
  /\ ((E < I)%Q -> (0 < I /\ 0 < (I - E) / I * 100 <= 100)%Q).
Proof.
  cbv zeta.
  destruct (session_invariant presses (init_db None)) as [Hf _].
  { constructor. }
  { apply well_formed_init. }
  fold (App.session presses) in Hf.
  set (s := App.session presses) in *.
  assert (Hpos : Forall (fun t => (0 < amount t)%Q) (rows s)).
  { eapply Forall_impl; [|exact Hf]. intros t (_ & H & _). exact H. }
  assert (HI : (0 <= total_income (get_summary s))%Q).
  { cbn [get_summary total_income]. rewrite or_zero_select.
    apply sum_where_nonneg, Hpos. }
  assert (HE : (0 <= total_expenses (get_summary s))%Q).
  { cbn [get_summary total_expenses]. rewrite or_zero_select.
    apply sum_where_nonneg, Hpos. }
  split; [exact HI|]. split; [exact HE|]. split.
  - intros (t & Hin & He).
    rewrite (sum_where_perm "expense" _ _ (order_by_date_desc_perm (rows s))).
    apply (sum_where_pos "expense" (rows s) t Hpos).
    + now apply get_transactions_In.
    + apply String.eqb_eq, He.
  - set (I := total_income (get_summary s)) in *.
    set (E := total_expenses (get_summary s)) in *.
    clearbody I E. intros HEI.
    assert (HIpos : (0 < I)%Q) by lra.
    assert (Hne : ~ (I == 0)%Q) by (intros H; rewrite H in HIpos; discriminate HIpos).
    split; [exact HIpos|]. split.
    + assert (H0 : (0 == 0 / I * 100)%Q) by (field; exact Hne).
      rewrite H0. apply Qmult_lt_r; [reflexivity|].
      apply Qmult_lt_r; [apply Qinv_lt_0_compat, HIpos | lra].
    + apply Qnot_lt_le. intros H.
      assert (H3 : ((I - E) / I * 100 * I == (I - E) * 100)%Q) by (field; exact Hne).
      assert (H4 : (100 * I < (I - E) / I * 100 * I)%Q)
        by (apply Qmult_lt_r; [exact HIpos | exact H]).
      rewrite H3 in H4. lra.
Qed.

(** ** Decimal strings of a fixed width *)

Lemma horner_acc (s : string) (acc : Z) :
  Dates.horner s acc = (acc * 10 ^ Z.of_nat (String.length s) + Dates.horner s 0)%Z.
Proof.
  revert acc. induction s as [|c r IH]; intros acc.
  - simpl. lia.
  - cbn [Dates.horner String.length]. rewrite (IH (10 * acc + _)%Z), (IH (10 * 0 + _)%Z).
    rewrite Nat2Z.inj_succ, Z.pow_succ_r by lia. ring.
Qed.

Lemma digit_range (c : ascii) :
  App.is_digit c = true -> (0 <= Z.of_N (N_of_ascii c - 48) <= 9)%Z
                           /\ (48 <= N_of_ascii c)%N.
Proof.
  unfold App.is_digit, App.digit_value.
  destruct ((48 <=? N_of_ascii c) && (N_of_ascii c <=? 57))%N eqn:E; [|discriminate].
  intros _. apply andb_true_iff in E as [E1 E2]. apply N.leb_le in E1, E2. lia.
Qed.

Lemma horner_range (s : string) :
  Dates.all_digits s -> (0 <= Dates.horner s 0 < 10 ^ Z.of_nat (String.length s))%Z.
Proof.
  induction s as [|c r IH]; intros H.
  - simpl. lia.
  - inversion H as [|? ? Hc Hr]; subst. specialize (IH Hr).
    cbn [Dates.horner String.length]. rewrite horner_acc.
    rewrite Nat2Z.inj_succ, Z.pow_succ_r by lia.
    destruct (digit_range c Hc) as [Hd _]. nia.
Qed.

Lemma compare_digits (s1 s2 : string) :
  Dates.all_digits s1 -> Dates.all_digits s2 -> String.length s1 = String.length s2 ->
  String.compare s1 s2 = (Dates.horner s1 0 ?= Dates.horner s2 0)%Z.
Proof.
  revert s2. induction s1 as [|c1 r1 IH]; intros [|c2 r2] H1 H2 Hlen;
    try discriminate Hlen.
  - reflexivity.
  - inversion H1 as [|? ? Hc1 Hr1]; inversion H2 as [|? ? Hc2 Hr2]; subst.
    injection Hlen as Hlen.
    cbn [String.compare Dates.horner].
    rewrite (horner_acc r1), (horner_acc r2), <- Hlen.
    pose proof (horner_range r1 Hr1) as B1. pose proof (horner_range r2 Hr2) as B2.
    rewrite <- Hlen in B2.
    destruct (digit_range c1 Hc1) as [D1 L1]. destruct (digit_range c2 Hc2) as [D2 L2].
    set (p := (10 ^ Z.of_nat (String.length r1))%Z) in *.
    unfold Ascii.compare.
    destruct (N.compare_spec (N_of_ascii c1) (N_of_ascii c2)) as [E | E | E].
    + rewrite E, (IH r2 Hr1 Hr2 Hlen).
      destruct (Z.compare_spec (Dates.horner r1 0) (Dates.horner r2 0)) as [E' | E' | E'];
        symmetry; [apply Z.compare_eq_iff | apply Z.compare_lt_iff
                  | apply Z.compare_gt_iff]; lia.
    + symmetry. apply Z.compare_lt_iff. nia.
    + symmetry. apply Z.compare_gt_iff. nia.
Qed.

Lemma replicate_zero_digits (n : nat) : Dates.all_digits (Text.replicate n "0").
Proof. induction n; simpl; constructor; auto. Qed.

Lemma all_digits_app (a b : string) :
  Dates.all_digits a -> Dates.all_digits b -> Dates.all_digits (a ++ b).
Proof.
  unfold Dates.all_digits. induction a as [|c a IH]; simpl; intros Ha Hb; [exact Hb|].
  inversion Ha; subst. constructor; auto.
Qed.

Lemma horner_replicate_zero (n : nat) (s : string) :
  Dates.horner (Text.replicate n "0" ++ s) 0 = Dates.horner s 0.
Proof. induction n; simpl; auto. Qed.

Lemma length_append (a b : string) :
  String.length (a ++ b) = (String.length a + String.length b)%nat.
Proof. induction a; simpl; auto. Qed.

Lemma length_replicate (n : nat) (c : ascii) : String.length (Text.replicate n c) = n.
Proof. induction n; simpl; auto. Qed.

Lemma of_Z_digits (n : Z) : Dates.all_digits (Text.of_Z n).
Proof. rewrite of_Z_string. apply string_of_uint_digits. Qed.

Lemma digits_horner (s : string) (acc : Z) :
  Dates.all_digits s -> App.digits s acc true = Some (Dates.horner s acc).
Proof.
  revert acc. induction s as [|c r IH]; intros acc H; [reflexivity|].
  inversion H as [|? ? Hc Hr]; subst. cbn [App.digits Dates.horner].
  unfold App.is_digit, App.digit_value in *.
  destruct ((48 <=? N_of_ascii c) && (N_of_ascii c <=? 57))%N; [|discriminate Hc].
  apply IH, Hr.
Qed.

Lemma horner_of_Z (n : Z) : (0 <= n)%Z -> Dates.horner (Text.of_Z n) 0 = n.
Proof.
  intros Hn. pose proof (digits_of_Z n true Hn) as H.
  rewrite digits_horner in H by apply of_Z_digits. now injection H.
Qed.

Lemma to_uint_no_leading_zero (p : positive) (d : Decimal.uint) :
  Pos.to_uint p <> Decimal.D0 d.
Proof.
  intros H.
  pose proof (DecimalPos.Unsigned.to_of (Pos.to_uint p)) as Hn.
  rewrite DecimalPos.Unsigned.of_to in Hn. simpl in Hn.
  rewrite H in Hn. unfold Decimal.unorm in Hn. simpl in Hn.
  destruct (Decimal.nzhead d) eqn:E.
  - injection Hn as Hd. subst d. exact (DecimalPos.Unsigned.to_uint_nonzero p H).
  - exact (DecimalFacts.nzhead_nonzero d u E).
  - discriminate Hn.
  - discriminate Hn.
  - discriminate Hn.
  - discriminate Hn.
  - discriminate Hn.
  - discriminate Hn.
  - discriminate Hn.
  - discriminate Hn.
  - discriminate Hn.
Qed.

Lemma horner_leading (c : ascii) (r : string) :
  Dates.all_digits (String c r) -> (1 <= Z.of_N (N_of_ascii c - 48))%Z ->
  (10 ^ Z.of_nat (String.length r) <= Dates.horner (String c r) 0)%Z.
Proof.
  intros H Hc. inversion H as [|? ? _ Hr]; subst.
  cbn [Dates.horner]. rewrite horner_acc.
  pose proof (horner_range r Hr). nia.
Qed.

Lemma of_Z_length (w : nat) (n : Z) :
  (1 <= w)%nat -> (0 <= n < 10 ^ Z.of_nat w)%Z ->
  (String.length (Text.of_Z n) <= w)%nat.
Proof.
  intros Hw Hn.
  pose proof (horner_of_Z n (proj1 Hn)) as Hv.
  pose proof (of_Z_digits n) as Hd.
  rewrite of_Z_string in *.
  destruct (Z.to_N n) as [|p] eqn:E.
  - simpl. exact Hw.
  - cbn [N.to_uint] in *.
    pose proof (to_uint_no_leading_zero p) as Hz.
    pose proof (DecimalPos.Unsigned.to_uint_nonnil p) as Hnil.
    destruct (Pos.to_uint p) as [|d|d|d|d|d|d|d|d|d|d];
      [congruence | exfalso; exact (Hz d eq_refl) | ..];
      (cbn [NilEmpty.string_of_uint] in *;
       match type of Hd with
       | Dates.all_digits (String ?c ?r) =>
           pose proof (horner_leading c r Hd ltac:(vm_compute; discriminate)) as Hl
       end;
       rewrite Hv in Hl; cbn [String.length];
       apply Nat.le_succ_l, Nat2Z.inj_lt;
       apply (Z.pow_lt_mono_r_iff 10); lia).
Qed.

Lemma pad_facts (w : nat) (n : Z) :
  (1 <= w)%nat -> (0 <= n < 10 ^ Z.of_nat w)%Z ->
  String.length (Text.zfill w (Text.of_Z n)) = w
  /\ Dates.all_digits (Text.zfill w (Text.of_Z n))
  /\ Dates.horner (Text.zfill w (Text.of_Z n)) 0 = n.
Proof.
  intros Hw Hn. pose proof (of_Z_length w n Hw Hn) as Hl.
  unfold Text.zfill. split; [|split].
  - rewrite length_append, length_replicate. lia.
  - apply all_digits_app; [apply replicate_zero_digits | apply of_Z_digits].
  - rewrite horner_replicate_zero. apply horner_of_Z. lia.
Qed.

(** Zero-padded decimal strings of one width compare as their numbers. *)
Lemma pad_compare (w : nat) (a b : Z) :
  (1 <= w)%nat -> (0 <= a < 10 ^ Z.of_nat w)%Z -> (0 <= b < 10 ^ Z.of_nat w)%Z ->
  String.compare (Text.zfill w (Text.of_Z a)) (Text.zfill w (Text.of_Z b))
  = (a ?= b)%Z.
Proof.
  intros Hw Ha Hb.
  destruct (pad_facts w a Hw Ha) as (La & Da & Va).
  destruct (pad_facts w b Hw Hb) as (Lb & Db & Vb).
  rewrite (compare_digits _ _ Da Db) by congruence.
  now rewrite Va, Vb.
Qed.

Lemma compare_append (a a' b b' : string) :
  String.length a = String.length a' ->
  String.compare (a ++ b) (a' ++ b')
  = match String.compare a a' with
    | Eq => String.compare b b'
    | r => r
    end.
Proof.
  revert a'. induction a as [|c a IH]; intros [|c' a'] H; try discriminate H.
  - reflexivity.
  - injection H as H. cbn [append String.compare].
    destruct (Ascii.compare c c'); [apply IH, H | reflexivity | reflexivity].
Qed.

Lemma compare_refl (s : string) : String.compare s s = Eq.
Proof.
  induction s as [|c s IH]; [reflexivity|]. simpl.
  unfold Ascii.compare. now rewrite N.compare_refl.
Qed.

Lemma prefix_append (a a' b b' : string) :
  String.length a = String.length a' ->
  prefix (a ++ b) (a' ++ b')
  = match String.compare a a' with
    | Eq => prefix b b'
    | _ => false
    end.
Proof.
  revert a'. induction a as [|c a IH]; intros [|c' a'] H; try discriminate H.
  - reflexivity.
  - injection H as H. cbn [append prefix String.compare].
    destruct (ascii_dec c c') as [<- | Hne].
    + unfold Ascii.compare. rewrite N.compare_refl. apply IH, H.
    + destruct (Ascii.compare c c') eqn:E; [|reflexivity..].
      apply Ascii.compare_eq_iff in E. contradiction.
Qed.

(** ** ISO dates compare as calendar dates *)

Lemma iso_parts (d : Clock.datetime) :
  App.isoformat d
  = Text.zfill 4 (Text.of_Z (Clock.year d))
    ++ "-" ++ Text.zfill 2 (Text.of_Z (Clock.month d))
    ++ "-" ++ Text.zfill 2 (Text.of_Z (Clock.day d)).
Proof.
  unfold App.isoformat, Clock.strftime_Y_m_d, Clock.strftime_Y_m.
  now rewrite !append_assoc.
Qed.

Lemma iso_compare (a b : Clock.datetime) :
  Dates.valid a -> Dates.valid b ->
  String.compare (App.isoformat a) (App.isoformat b) = Dates.compare a b.
Proof.
  intros (Ya & Ma & Da) (Yb & Mb & Db).
  rewrite !iso_parts. unfold Dates.compare.
  assert (W4 : (10 ^ Z.of_nat 4 = 10000)%Z) by reflexivity.
  assert (W2 : (10 ^ Z.of_nat 2 = 100)%Z) by reflexivity.
  rewrite compare_append
    by (rewrite (proj1 (pad_facts 4 (Clock.year a) ltac:(lia) ltac:(lia))),
                (proj1 (pad_facts 4 (Clock.year b) ltac:(lia) ltac:(lia)));
        reflexivity).
  rewrite pad_compare by lia.
  destruct (Clock.year a ?= Clock.year b)%Z; [|reflexivity..].
  rewrite (compare_append "-" "-") by reflexivity.
  change (String.compare "-" "-") with Eq. cbv iota.
  rewrite compare_append
    by (rewrite (proj1 (pad_facts 2 (Clock.month a) ltac:(lia) ltac:(lia))),
                (proj1 (pad_facts 2 (Clock.month b) ltac:(lia) ltac:(lia)));
        reflexivity).
  rewrite pad_compare by lia.
  destruct (Clock.month a ?= Clock.month b)%Z; [|reflexivity..].
  rewrite (compare_append "-" "-") by reflexivity.
  change (String.compare "-" "-") with Eq. cbv iota.
  apply pad_compare; lia.
Qed.

Lemma iso_month_prefix (now d : Clock.datetime) :
  Dates.valid now -> Dates.valid d ->
  Text.startswith (App.isoformat d) (Clock.strftime_Y_m now) = Dates.same_month d now.
Proof.
  intros (Yn & Mn & _) (Yd & Md & _).
  unfold Text.startswith. rewrite iso_parts. unfold Clock.strftime_Y_m, Dates.same_month.
  assert (W4 : (10 ^ Z.of_nat 4 = 10000)%Z) by reflexivity.
  assert (W2 : (10 ^ Z.of_nat 2 = 100)%Z) by reflexivity.
  rewrite prefix_append
    by (rewrite (proj1 (pad_facts 4 (Clock.year now) ltac:(lia) ltac:(lia))),
                (proj1 (pad_facts 4 (Clock.year d) ltac:(lia) ltac:(lia)));
        reflexivity).
  rewrite pad_compare by lia.
  rewrite (Z.eqb_sym (Clock.year d)), (Z.eqb_sym (Clock.month d)).
  destruct (Z.compare_spec (Clock.year now) (Clock.year d)) as [E | E | E].
  - rewrite E, Z.eqb_refl. cbn [andb].
    rewrite (prefix_append "-" "-") by reflexivity.
    change (String.compare "-" "-") with Eq. cbv iota.
    replace (Text.zfill 2 (Text.of_Z (Clock.month now)))
      with (Text.zfill 2 (Text.of_Z (Clock.month now)) ++ "")
      by (clear; induction (Text.zfill 2 (Text.of_Z (Clock.month now)));
          simpl; congruence).
    rewrite prefix_append
      by (rewrite (proj1 (pad_facts 2 (Clock.month now) ltac:(lia) ltac:(lia))),
                  (proj1 (pad_facts 2 (Clock.month d) ltac:(lia) ltac:(lia)));
          reflexivity).
    rewrite pad_compare by lia.
    destruct (Z.compare_spec (Clock.month now) (Clock.month d)) as [E' | E' | E'].
    + rewrite E', Z.eqb_refl. reflexivity.
    + symmetry. apply Z.eqb_neq. lia.
    + symmetry. apply Z.eqb_neq. lia.
  - assert (H : (Clock.year now =? Clock.year d)%Z = false) by (apply Z.eqb_neq; lia).
    now rewrite H.
  - assert (H : (Clock.year now =? Clock.year d)%Z = false) by (apply Z.eqb_neq; lia).
    now rewrite H.
Qed.

(** ** The calendar arithmetic stays within the ranges of a date *)

Section Calendar.
Local Open Scope Z_scope.

Lemma fromordinal_fields (z : Z) :
  1 <= Clock.month (Clock.fromordinal z) <= 12
  /\ 1 <= Clock.day (Clock.fromordinal z) <= 31.
Proof.
  unfold Clock.fromordinal. cbn [Clock.month Clock.day].
  set (z' := z + 719468).
  set (era := z' / 146097).
  set (doe := z' - era * 146097).
  assert (Hdoe : 0 <= doe <= 146096).
  { subst doe era. pose proof (Z.mod_pos_bound z' 146097 ltac:(lia)).
    rewrite Z.mod_eq in H by lia. lia. }
  clearbody doe. clear z z' era.
  set (yoe := (doe - doe / 1460 + doe / 36524 - doe / 146096) / 365).
  set (doy := doe - (365 * yoe + yoe / 4 - yoe / 100)).
  assert (Hdoy : 0 <= doy <= 365).
  { subst doy yoe. Z.to_euclidean_division_equations. lia. }
  clearbody doy.
  set (mp := (5 * doy + 2) / 153).
  assert (Hmp : 0 <= mp <= 11) by (subst mp; Z.to_euclidean_division_equations; lia).
  split.
  - destruct (mp <? 10) eqn:E; [apply Z.ltb_lt in E | apply Z.ltb_ge in E]; lia.
  - subst mp. Z.to_euclidean_division_equations. lia.
Qed.

Lemma fromordinal_year (z : Z) :
  -719162 <= z <= 2932896 -> 1 <= Clock.year (Clock.fromordinal z) <= 9999.
Proof.
  intros Hz. unfold Clock.fromordinal. cbn [Clock.year].
  set (z' := z + 719468).
  assert (Hz' : 306 <= z' <= 3652364) by (subst z'; lia). clearbody z'. clear z Hz.
  set (era := z' / 146097).
  set (doe := z' - era * 146097).
  assert (Hera : 0 <= era <= 24 /\ 0 <= doe <= 146096 /\ z' = era * 146097 + doe).
  { subst doe era. Z.to_euclidean_division_equations. lia. }
  clearbody doe era. destruct Hera as (Hera & Hdoe & ->).
  set (yoe := (doe - doe / 1460 + doe / 36524 - doe / 146096) / 365).
  set (doy := doe - (365 * yoe + yoe / 4 - yoe / 100)).
  assert (H : 0 <= yoe <= 399 /\ 0 <= doy <= 365
              /\ doe = 365 * yoe + yoe / 4 - yoe / 100 + doy).
  { subst doy yoe. Z.to_euclidean_division_equations. lia. }
  clearbody doy yoe. destruct H as (Hyoe & Hdoy & ->).
  set (mp := (5 * doy + 2) / 153).
  assert (Hmp : 0 <= mp <= 11 /\ (306 <= doy -> 10 <= mp) /\ (doy < 306 -> mp < 10))
    by (subst mp; Z.to_euclidean_division_equations; lia).
  clearbody mp.
  destruct (mp <? 10) eqn:E; [apply Z.ltb_lt in E | apply Z.ltb_ge in E].
  - replace (mp + 3 <=? 2) with false by (symmetry; apply Z.leb_gt; lia).
    Z.to_euclidean_division_equations. lia.
  - replace (mp - 9 <=? 2) with true by (symmetry; apply Z.leb_le; lia).
    Z.to_euclidean_division_equations. lia.
Qed.

Lemma toordinal_range (d : Clock.datetime) :
  1 <= Clock.year d <= 9999 -> 1 <= Clock.month d <= 12 -> 1 <= Clock.day d <= 31 ->
  -719162 <= Clock.toordinal d <= 2932896
  /\ (2 <= Clock.year d -> -719162 + 365 <= Clock.toordinal d).
Proof.
  intros Hy Hm Hd. unfold Clock.toordinal.
  destruct (Clock.month d <=? 2) eqn:E1; [apply Z.leb_le in E1 | apply Z.leb_gt in E1];
    destruct (Clock.month d >? 2) eqn:E2;
    try (apply Z.gtb_lt in E2); try (rewrite Z.gtb_ltb in E2; apply Z.ltb_ge in E2);
    try lia;
    (split; [|intros]; Z.to_euclidean_division_equations; lia).
Qed.

Lemma minus_days_valid (d : Clock.datetime) (n : Z) :
  Dates.valid d -> 2 <= Clock.year d -> 0 <= n <= 365 ->
  Dates.valid (Clock.minus_days d n).
Proof.
  intros (Hy & Hm & Hd) Hy2 Hn. unfold Clock.minus_days.
  destruct (toordinal_range d Hy Hm Hd) as [[_ Hu] Hl]. specialize (Hl Hy2).
  pose proof (fromordinal_fields (Clock.toordinal d - n)) as [Hm' Hd'].
  pose proof (fromordinal_year (Clock.toordinal d - n) ltac:(lia)) as Hy'.
  repeat split; lia.
Qed.

End Calendar.

(** ** Months and windows by the calendar *)

Lemma filter_map_fst {A B : Type} (f : A -> bool) (l : list (A * B)) :
  filter f (map fst l) = map fst (filter (fun p => f (fst p)) l).
Proof.
  induction l as [|p l IH]; simpl; [reflexivity|].
  destruct (f (fst p)); simpl; now rewrite IH.
Qed.

Lemma filter_agree {A : Type} (f g : A -> bool) (l : list A) :
  (forall x, In x l -> f x = g x) -> filter f l = filter g l.
Proof.
  induction l as [|x l IH]; simpl; intros H; [reflexivity|].
  rewrite (H x (or_introl eq_refl)), IH by (intros y Hy; apply H; now right).
  reflexivity.
Qed.

Lemma iso_le (a b : Clock.datetime) :
  Dates.valid a -> Dates.valid b ->
  Text.le (App.isoformat a) (App.isoformat b) = Dates.leb a b.
Proof.
  intros Ha Hb. unfold Text.le, String.leb, Dates.leb.
  now rewrite iso_compare.
Qed.

Lemma iso_lt (a b : Clock.datetime) :
  Dates.valid a -> Dates.valid b ->
  Text.lt (App.isoformat a) (App.isoformat b) = Dates.ltb a b.
Proof.
  intros Ha Hb. unfold Text.lt, String.ltb, Dates.ltb.
  now rewrite iso_compare.
Qed.


Opaque Clock.strftime_Y_m_d Clock.minus_days.


Transparent Clock.strftime_Y_m_d Clock.minus_days.

Lemma samples_dated : Forall Dates.dated Samples.this_and_last_month.
Proof.
  repeat constructor; simpl; lia.
Qed.

Lemma funded_now_valid : Dates.valid (now Examples.funded).
Proof. repeat split; simpl; lia. Qed.



(** ** The savings tips and the breakdown agree *)

Section FirstMaximum.

Local Abbreviation pick :=
  (fun best y : string * Q => if Num.Qltb (snd best) (snd y) then y else best).

Lemma pick_assoc (x y z : string * Q) : pick (pick x y) z = pick x (pick y z).
Proof.
  cbv beta.
  destruct (Num.Qltb (snd x) (snd y)) eqn:Exy;
    destruct (Num.Qltb (snd y) (snd z)) eqn:Eyz; try rewrite Exy; try reflexivity.
  - apply Qltb_lt in Exy, Eyz.
    assert (H : Num.Qltb (snd x) (snd z) = true)
      by (apply Qltb_lt; eapply Qlt_trans; eassumption).
    now rewrite H.
  - apply Qltb_ge in Exy, Eyz.
    assert (H : Num.Qltb (snd x) (snd z) = false)
      by (apply Qltb_ge; eapply Qle_trans; eassumption).
    now rewrite H.
Qed.

Lemma fold_pick_cons (r : list (string * Q)) (x y : string * Q) :
  fold_left pick r (pick x y) = pick x (fold_left pick r y).
Proof.
  revert x y. induction r as [|z r IH]; intros x y; [reflexivity|].
  cbn [fold_left]. rewrite <- IH. f_equal. apply pick_assoc.
Qed.

Lemma sorted_head (l : list (string * Q)) (x : string * Q) :
  exists rest, sorted_by_amount_desc (x :: l) = fold_left pick l x :: rest.
Proof.
  revert x. induction l as [|y l IH]; intros x.
  - exists []. reflexivity.
  - destruct (IH y) as [rest Hrest].
    cbn [fold_left]. rewrite fold_pick_cons.
    change (sorted_by_amount_desc (x :: y :: l))
      with (insert_by_amount x (sorted_by_amount_desc (y :: l))).
    rewrite Hrest. cbn [insert_by_amount].
    destruct (Num.Qltb (snd x) (snd (fold_left pick l y))); eauto.
Qed.

End FirstMaximum.


